(** * RekognitionVideoAnalyzer: the live video analysis loop

    A shallow embedding of [src/lambda/video_stream.py] and the properties of
    its scheduling rule, its overlay renderer and its session teardown.

    Python values are modelled as the interpreter has them:
    - [int] is [Z] (unbounded), [%] is the floored modulo and raises
      [ZeroDivisionError] on a zero divisor;
    - [float] is IEEE 754 binary64, through the Standard Library's
      [SpecFloat] with [prec = 53] and [emax = 1024];
    - a raised exception is the [Raise] case of [result];
    - everything the program prints, displays, requests from the service or
      releases is an [event] of a trace, in program order. *)

From Stdlib Require Import ZArith QArith Qabs List Bool String Lia SpecFloat.
Import ListNotations.
Open Scope Z_scope.

(** ** Python exceptions and fallible computations *)

Module Py.

Inductive exn : Type :=
| KeyboardInterrupt
| ClientError (code : string)      (* botocore.exceptions.ClientError *)
| ZeroDivisionError
| KeyError (key : string)
| OverflowError
| ValueError
| OtherException (name : string).  (* any other class, e.g. cv2.error *)

Inductive result (A : Type) : Type :=
| Ok (a : A)
| Raise (e : exn).
Arguments Ok {A} a.
Arguments Raise {A} e.

(** [isinstance(e, ClientError)], the test of an [except ClientError]. *)
Definition is_ClientError (e : exn) : bool :=
  match e with ClientError _ => true | _ => false end.

Definition is_KeyboardInterrupt (e : exn) : bool :=
  match e with KeyboardInterrupt => true | _ => false end.

(** [isinstance(e, Exception)], the test of an [except Exception]:
    [KeyboardInterrupt] derives from [BaseException] only; the other
    constructors stand for subclasses of [Exception]. *)
Definition is_Exception (e : exn) : bool := negb (is_KeyboardInterrupt e).

(** [a % b] on Python integers: the result has the sign of the divisor. *)
Definition mod_ (a b : Z) : result Z :=
  if b =? 0 then Raise ZeroDivisionError else Ok (a mod b).

(** [d[key]] on a dictionary that may lack the key. *)
Definition getitem {A} (field : option A) (key : string) : result A :=
  match field with Some a => Ok a | None => Raise (KeyError key) end.

(** [d.get(key, default)]. *)
Definition get {A} (field : option A) (default : A) : A :=
  match field with Some a => a | None => default end.

End Py.
Import Py.

(** ** Python floats (binary64) *)

Module PyFloat.

Definition float : Type := spec_float.

Definition prec : Z := 53.
Definition emax : Z := 1024.

Definition mul : float -> float -> float := SFmul prec emax.
Definition sub : float -> float -> float := SFsub prec emax.
Definition div : float -> float -> float := SFdiv prec emax.
Definition ltb : float -> float -> bool := SFltb.
Definition leb : float -> float -> bool := SFleb.

(** The nearest binary64 to an integer (exact below 2^53). *)
Definition of_Z (z : Z) : float := binary_normalize prec emax z 0 false.

(** [float(z)]: raises when the integer is beyond the finite range. *)
Definition of_int (z : Z) : result float :=
  match of_Z z with
  | S754_infinity _ => Raise OverflowError
  | f => Ok f
  end.

(** A decimal literal [num/den] with [num] and [den] exactly representable:
    division is correctly rounded, so this is the float the literal denotes
    (0.1 is [lit 1 10]). *)
Definition lit (num den : Z) : float := div (of_Z num) (of_Z den).

(** [x * n] with [x] a float and [n] an int: the int is converted first. *)
Definition mul_int (x : float) (n : Z) : result float :=
  match of_int n with
  | Ok fn => Ok (mul x fn)
  | Raise e => Raise e
  end.

(** [int(x)]: truncation toward zero; NaN and infinities raise. *)
Definition to_int (x : float) : result Z :=
  match x with
  | S754_zero _ => Ok 0
  | S754_infinity _ => Raise OverflowError
  | S754_nan => Raise ValueError
  | S754_finite s m e => Ok (cond_Zopp s (Z.shiftl (Z.pos m) e))
  end.

(** The rational that a zero or a finite float denotes: [m * 2^e], signed. *)
Definition to_Q (x : float) : Q :=
  match x with
  | S754_finite s m (Zneg k) => cond_Zopp s (Z.pos m) # 2 ^ k
  | S754_finite s m e => inject_Z (cond_Zopp s (Z.pos m * 2 ^ e))
  | _ => 0
  end.

(** [x > n] with an int constant [n] that is exactly representable. *)
Definition gt_int (x : float) (n : Z) : bool := ltb (of_Z n) x.

(** [x >= n], used to state readings of the specification. *)
Definition ge_int (x : float) (n : Z) : bool := leb (of_Z n) x.

End PyFloat.
Import PyFloat.

Arguments PyFloat.lit : simpl never.
Arguments PyFloat.of_Z : simpl never.

(** ** Data model *)

Definition bytes : Type := list Z.

(** A normalized bounding box of a service response. *)
Record BoundingBox : Type := {
  Left : float;
  Top : float;
  Width : float;
  Height : float
}.

Record AgeRange : Type := {
  Low : Z;
  High : Z
}.

(** An entry of ['FaceDetails'].  ['BoundingBox'] is read with [face[...]],
    the other keys with [face.get(...)]: a missing key is [None]. *)
Record FaceDetail : Type := {
  face_BoundingBox : option BoundingBox;
  face_Confidence : option float;
  face_AgeRange : option AgeRange
}.

(** An entry of ['Labels']. *)
Record Label : Type := {
  Name : string;
  Confidence : float
}.

(** The responses of the two service calls; [response.get(key, [])]. *)
Record FacesResponse : Type := { FaceDetails : option (list FaceDetail) }.
Record LabelsResponse : Type := { Labels : option (list Label) }.

(** What [cv2.putText] is asked to write. *)
Inductive text : Type :=
| TextFace (confidence : float)          (* f'Face: {confidence:.1f}%' *)
| TextAge (low high : Z)                 (* f"Age: {low}-{high}" *)
| TextInstructions                       (* "Press SPACE to analyze, Q to quit" *)
| TextFrame (frame_count : Z).           (* f"Frame: {frame_count}" *)

Definition color : Type := (Z * Z * Z)%type.
Definition green : color := (0, 255, 0).
Definition white : color := (255, 255, 255).

(** The drawing primitives applied to a frame, oldest first. *)
Inductive draw_op : Type :=
| Rectangle (pt1 pt2 : Z * Z) (c : color) (thickness : Z)
| PutText (t : text) (org : Z * Z) (fontScale : float) (c : color) (thickness : Z).

(** A captured image: its [shape[:2]], its captured pixels and what has been
    drawn over them since. *)
Record frame : Type := {
  height : Z;
  width : Z;
  pixels : list Z;
  drawn : list draw_op
}.

Definition draw (f : frame) (op : draw_op) : frame :=
  {| height := height f; width := width f; pixels := pixels f;
     drawn := drawn f ++ [op] |}.

(** The lines the program prints. *)
Inductive message : Type :=
| MsgCouldNotOpenWebcam
| MsgWebcamInitialized
| MsgStarting
| MsgKeys
| MsgAutomatic (analyze_every_n_frames : Z)
| MsgCouldNotReadFrame
| MsgAnalyzing (frame_count : Z)
| MsgErrorDetectingFaces (e : exn)
| MsgErrorDetectingLabels (e : exn)
| MsgDetectionResults (faces : list FaceDetail) (labels : list Label)
                      (frame_count : Z)
| MsgStoppedByUser
| MsgResourcesCleanedUp
| MsgBanner
| MsgApplicationError (e : exn)
| MsgBannerRule                      (* "=" * 50 *)
| MsgClientInitialized
| MsgErrorInitializing (e : exn)
| MsgMakeSure                        (* "Make sure:" *)
| MsgHint (n : Z).                   (* the numbered lines 1 to 4 *)

(** Everything observable from outside the process. *)
Inductive event : Type :=
| Print (m : message)
| DetectFacesRequest (image : bytes) (attributes : list string)
| DetectLabelsRequest (image : bytes) (max_labels min_confidence : Z)
| ImShow (f : frame)
| CapRelease
| DestroyAllWindows.

(** What the outside world answers during one iteration of the loop: the
    camera, the clock, the keyboard, the encoder and the remote service.  Any
    of the calls may raise. *)
Record world : Type := {
  cap_read : result (bool * frame);
  time_time : float;
  waitKey : result Z;
  imencode : frame -> result (bool * bytes);
  rekognition_detect_faces : bytes -> list string -> result FacesResponse;
  rekognition_detect_labels : bytes -> Z -> Z -> result LabelsResponse
}.

(** ** Traces with exceptions *)

Definition M (A : Type) : Type := (list event * result A)%type.

Definition ret {A} (a : A) : M A := ([], Ok a).

Definition bind {A B} (m : M A) (k : A -> M B) : M B :=
  match m with
  | (t, Ok a) => let (t', r) := k a in (t ++ t', r)
  | (t, Raise e) => (t, Raise e)
  end.

Definition emit (ev : event) : M unit := ([ev], Ok tt).

Definition lift {A} (r : result A) : M A := ([], r).

(** [try: m  except ClientError as e: handler e]. *)
Definition try_except_ClientError {A} (m : M A) (handler : exn -> M A) : M A :=
  match m with
  | (t, Raise e) =>
      if is_ClientError e then let (t', r) := handler e in (t ++ t', r)
      else (t, Raise e)
  | _ => m
  end.

Notation "x <- m ;; k" := (bind m (fun x => k))
  (at level 61, m at next level, right associativity).
Notation "' pat <- m ;; k" :=
  (bind m (fun x => match x with pat => k end))
  (at level 61, pat pattern, m at next level, right associativity).
Notation "m ;;; k" := (bind m (fun _ => k))
  (at level 61, right associativity).

(** ** The analyzer *)

Module RekognitionVideoAnalyzer.

(** [encode_image]: the success flag of [cv2.imencode] is bound to [_] and
    dropped; the buffer is returned whatever the flag says. *)
Definition encode_image (w : world) (f : frame) : M bytes :=
  '(_, buffer) <- lift (imencode w f) ;;
  ret buffer.

(** [detect_faces]: the request asks for all attributes; a [ClientError]
    is printed and replaced by the empty list. *)
Definition detect_faces (w : world) (image_bytes : bytes)
  : M (list FaceDetail) :=
  try_except_ClientError
    (emit (DetectFacesRequest image_bytes ["ALL"%string]) ;;;
     response <- lift (rekognition_detect_faces w image_bytes ["ALL"%string]) ;;
     ret (get (FaceDetails response) []))
    (fun e => emit (Print (MsgErrorDetectingFaces e)) ;;; ret []).

Definition MaxLabels : Z := 10.
Definition MinConfidence : Z := 70.

(** [detect_labels]. *)
Definition detect_labels (w : world) (image_bytes : bytes)
  : M (list Label) :=
  try_except_ClientError
    (emit (DetectLabelsRequest image_bytes MaxLabels MinConfidence) ;;;
     response <- lift (rekognition_detect_labels w image_bytes
                         MaxLabels MinConfidence) ;;
     ret (get (Labels response) []))
    (fun e => emit (Print (MsgErrorDetectingLabels e)) ;;; ret []).

(** [int(coordinate * extent)], the conversion of one relative coordinate
    to a pixel coordinate. *)
Definition pixel (coordinate : float) (extent : Z) : result Z :=
  match mul_int coordinate extent with
  | Ok p => to_int p
  | Raise e => Raise e
  end.

(** What is drawn for one face once its pixel rectangle is known. *)
Definition face_overlay (face : FaceDetail) (x y w h : Z) : list draw_op :=
  let confidence := get (face_Confidence face) (of_Z 0) in
  [Rectangle (x, y) (x + w, y + h) green 2;
   PutText (TextFace confidence) (x, y - 10) (lit 5 10) green 1]
  ++ match face_AgeRange face with
     | Some age_range =>
         [PutText (TextAge (Low age_range) (High age_range))
            (x, y + h + 20) (lit 4 10) green 1]
     | None => []
     end.

(** The body of the [for face in faces] loop of [draw_face_boxes]. *)
Definition draw_face_box (f : frame) (face : FaceDetail) : result frame :=
  match getitem (face_BoundingBox face) "BoundingBox" with
  | Raise e => Raise e
  | Ok box =>
    match pixel (Left box) (width f) with Raise e => Raise e | Ok x =>
    match pixel (Top box) (height f) with Raise e => Raise e | Ok y =>
    match pixel (Width box) (width f) with Raise e => Raise e | Ok w =>
    match pixel (Height box) (height f) with Raise e => Raise e | Ok h =>
      Ok (fold_left draw (face_overlay face x y w h) f)
    end end end end
  end.

(** [draw_face_boxes]. *)
Fixpoint draw_face_boxes (f : frame) (faces : list FaceDetail)
  : result frame :=
  match faces with
  | [] => Ok f
  | face :: rest =>
      match draw_face_box f face with
      | Ok f' => draw_face_boxes f' rest
      | Raise e => Raise e
      end
  end.

(** [print_detection_results]: one event carrying what is printed from. *)
Definition print_detection_results (faces : list FaceDetail)
    (labels : list Label) (frame_count : Z) : M unit :=
  emit (Print (MsgDetectionResults faces labels frame_count)).

(** The local variables of [run_video_analysis] that survive an
    iteration. *)
Record loop_state : Type := {
  frame_count : Z;
  last_analysis_time : float
}.

Definition ord_space : Z := 32.
Definition ord_q : Z := 113.

(** The [if / elif / elif] chain on the polled key. *)
Inductive branch : Type :=
| SetAnalyze      (* analyze_frame = True *)
| DoBreak         (* break *)
| FallThrough.    (* analyze_frame stays False *)

Definition key_branch (key frame_count analyze_every_n_frames : Z)
  : result branch :=
  if key =? ord_space then Ok SetAnalyze
  else
    match mod_ frame_count analyze_every_n_frames with
    | Raise e => Raise e
    | Ok r =>
        if r =? 0 then Ok SetAnalyze
        else if key =? ord_q then Ok DoBreak
        else Ok FallThrough
    end.

Definition analyze_frame_of (b : branch) : bool :=
  match b with SetAnalyze => true | _ => false end.

(** The two captions and [cv2.imshow]. *)
Definition caption (f : frame) (frame_count : Z) : frame :=
  draw (draw f (PutText TextInstructions (10, 30) (lit 7 10) white 2))
       (PutText (TextFrame frame_count) (10, 60) (lit 5 10) white 1).

Definition show (f : frame) (frame_count : Z) : M unit :=
  emit (ImShow (caption f frame_count)).

(** The body of [if analyze_frame and ... > 2:], up to the assignment to
    [last_analysis_time]. *)
Definition analysis (w : world) (f : frame) (frame_count : Z) : M frame :=
  emit (Print (MsgAnalyzing frame_count)) ;;;
  image_bytes <- encode_image w f ;;
  faces <- detect_faces w image_bytes ;;
  labels <- detect_labels w image_bytes ;;
  print_detection_results faces labels frame_count ;;;
  lift (draw_face_boxes f faces).

Inductive control : Type :=
| Next (st : loop_state)
| Break (st : loop_state).

(** One iteration of [while True]. *)
Definition loop_body (analyze_every_n_frames : Z) (st : loop_state)
    (w : world) : M control :=
  '(ret_, f) <- lift (cap_read w) ;;
  if negb ret_ then
    emit (Print MsgCouldNotReadFrame) ;;; ret (Break st)
  else
    let frame_count := frame_count st + 1 in
    let current_time := time_time w in
    k <- lift (waitKey w) ;;
    let key := Z.land k 255 in
    b <- lift (key_branch key frame_count analyze_every_n_frames) ;;
    match b with
    | DoBreak =>
        ret (Break {| frame_count := frame_count;
                      last_analysis_time := last_analysis_time st |})
    | _ =>
        if analyze_frame_of b
           && gt_int (sub current_time (last_analysis_time st)) 2
        then
          f' <- analysis w f frame_count ;;
          show f' frame_count ;;;
          ret (Next {| frame_count := frame_count;
                       last_analysis_time := current_time |})
        else
          show f frame_count ;;;
          ret (Next {| frame_count := frame_count;
                       last_analysis_time := last_analysis_time st |})
    end.

(** How the loop was left, if it was. *)
Inductive loop_exit : Type :=
| Exhausted (st : loop_state)   (* still running: no more inputs given *)
| Broke (st : loop_state)
| Raised (e : exn).

Fixpoint while_true (analyze_every_n_frames : Z) (st : loop_state)
    (ticks : list world) : list event * loop_exit :=
  match ticks with
  | [] => ([], Exhausted st)
  | w :: rest =>
      match loop_body analyze_every_n_frames st w with
      | (t, Ok (Next st')) =>
          let (t', x) := while_true analyze_every_n_frames st' rest in
          (t ++ t', x)
      | (t, Ok (Break st')) => (t, Broke st')
      | (t, Raise e) => (t, Raised e)
      end
  end.

(** A session: whether the camera opened, the clock at start, what the world
    answers at each iteration, and whether an exception cut the start short. *)
Record session : Type := {
  isOpened : bool;
  start_time : float;
  ticks : list world;
  (** An exception raised once [cv2.VideoCapture(0)] was called and before
      [try:] is entered (the test of [isOpened], the four lines printed, the
      reading of the clock), with the number of lines printed before it. *)
  before_try : option (nat * exn)
}.

Inductive outcome : Type :=
| Running (st : loop_state)
| Returned
| Propagated (e : exn).

Definition startup (analyze_every_n_frames : Z) : list event :=
  [Print MsgWebcamInitialized; Print MsgStarting; Print MsgKeys;
   Print (MsgAutomatic analyze_every_n_frames)].

(** The [finally] block. *)
Definition teardown : list event :=
  [CapRelease; DestroyAllWindows; Print MsgResourcesCleanedUp].

(** [run_video_analysis]. *)
Definition run_video_analysis (s : session) (analyze_every_n_frames : Z)
  : list event * outcome :=
  if negb (isOpened s) then ([Print MsgCouldNotOpenWebcam], Returned)
  else
    match before_try s with
    | Some (printed, e) =>
        (* outside [try:]: no handler, no [finally] *)
        (firstn printed (startup analyze_every_n_frames), Propagated e)
    | None =>
    let st0 := {| frame_count := 0; last_analysis_time := start_time s |} in
    match while_true analyze_every_n_frames st0 (ticks s) with
    | (t, Exhausted st) => (startup analyze_every_n_frames ++ t, Running st)
    | (t, Broke _) =>
        (startup analyze_every_n_frames ++ t ++ teardown, Returned)
    | (t, Raised e) =>
        if is_KeyboardInterrupt e then
          (startup analyze_every_n_frames ++ t
             ++ [Print MsgStoppedByUser] ++ teardown, Returned)
        else
          (startup analyze_every_n_frames ++ t ++ teardown, Propagated e)
    end
    end.

(** [__init__]: the creation of the client may raise; an [Exception] is
    printed and raised again. *)
Definition init (boto3_client : result unit) : M unit :=
  match boto3_client with
  | Ok _ => emit (Print MsgClientInitialized)
  | Raise e =>
      if is_Exception e
      then emit (Print (MsgErrorInitializing e)) ;;; lift (Raise e)
      else lift (Raise e)
  end.

(** The two lines [main] opens with. *)
Definition banner : list event := [Print MsgBanner; Print MsgBannerRule].

(** The [except Exception as e:] block of [main]: six lines. *)
Definition application_error (e : exn) : list event :=
  [Print (MsgApplicationError e); Print MsgMakeSure;
   Print (MsgHint 1); Print (MsgHint 2); Print (MsgHint 3);
   Print (MsgHint 4)].

(** [main]: the analyzer is created, then run with a cadence of 60 frames;
    an [Exception] from either is printed with the hints. *)
Definition main (boto3_client : result unit) (s : session)
  : list event * outcome :=
  match init boto3_client with
  | (t0, Raise e) =>
      if is_Exception e
      then (banner ++ t0 ++ application_error e, Returned)
      else (banner ++ t0, Propagated e)
  | (t0, Ok _) =>
      match run_video_analysis s 60 with
      | (t, Propagated e) =>
          if is_Exception e
          then (banner ++ t0 ++ t ++ application_error e, Returned)
          else (banner ++ t0 ++ t, Propagated e)
      | (t, o) => (banner ++ t0 ++ t, o)
      end
  end.

End RekognitionVideoAnalyzer.
Import RekognitionVideoAnalyzer.

(** ** Observations on traces and iterations *)

(** A call of the remote service. *)
Definition is_remote_request (ev : event) : bool :=
  match ev with
  | DetectFacesRequest _ _ | DetectLabelsRequest _ _ _ => true
  | _ => false
  end.

Definition remote_analysis_performed (t : list event) : bool :=
  existsb is_remote_request t.

(** The user pressed the space bar during this iteration. *)
Definition manual_trigger (k : Z) : bool := Z.land k 255 =? ord_space.

(** The user pressed [q] during this iteration. *)
Definition quit_signal (k : Z) : bool := Z.land k 255 =? ord_q.

(** [frame_count % n == 0] has a value, and the value is true. *)
Definition cadence_fires (n frame_count : Z) : bool :=
  negb (n =? 0) && (frame_count mod n =? 0).

(** The decision rule in the words of the specification: the trigger, and
    [now - last_analysis_timestamp >= min_interval_seconds]. *)
Definition spec_should_analyze (n : Z) (st : loop_state) (k : Z)
    (now : float) : bool :=
  (manual_trigger k || ((frame_count st + 1) mod n =? 0))
  && ge_int (sub now (last_analysis_time st)) 2.

(** The iteration entered the analysis branch. *)
Definition is_analyzing (ev : event) : bool :=
  match ev with Print (MsgAnalyzing _) => true | _ => false end.

Definition analysis_attempted (t : list event) : bool :=
  existsb is_analyzing t.

(** The state an iteration hands to the next one, if there is a next one. *)
Definition next_state (m : M control) : option loop_state :=
  match snd m with
  | Ok (Next st) => Some st
  | _ => None
  end.

(** The frames put on screen by a trace. *)
Fixpoint shown (t : list event) : list frame :=
  match t with
  | [] => []
  | ImShow f :: rest => f :: shown rest
  | _ :: rest => shown rest
  end.




(** [n] is the integer part of [p]: [p] truncated toward zero. *)
Definition truncated (p : float) (n : Z) : Prop :=
  (inject_Z (Z.abs n) <= Qabs (to_Q p) < inject_Z (Z.abs n) + 1)%Q
  /\ (0 <= inject_Z n * to_Q p)%Q.

(** The reading of the specification: [n] is an integer nearest to [p]. *)
Definition spec_nearest_pixel (p : float) (n : Z) : Prop :=
  (Qabs (to_Q p - inject_Z n) <= 1 # 2)%Q.

(** A label list within the bounds of a request. *)
Definition within_request (max_labels min_confidence : Z) (ls : list Label)
  : Prop :=
  Z.of_nat (List.length ls) <= max_labels
  /\ Forall (fun l => ge_int (Confidence l) min_confidence = true) ls.

(** The remote service honors [MaxLabels] and [MinConfidence]. *)
Definition honors_request (w : world) : Prop :=
  forall image max_labels min_confidence r ls,
    rekognition_detect_labels w image max_labels min_confidence = Ok r ->
    Labels r = Some ls ->
    within_request max_labels min_confidence ls.

(** What the label bounds say of one event: a label request carries the two
    constants, and a printed result carries a label list within them. *)
Definition labels_bounded (ev : event) : Prop :=
  match ev with
  | DetectLabelsRequest _ max_labels min_confidence =>
      max_labels = 10 /\ min_confidence = 70
  | Print (MsgDetectionResults _ labels _) => within_request 10 70 labels
  | _ => True
  end.

(** A service call that returned, or failed with a [ClientError]. *)
Definition absorbed {A} (r : result A) : bool :=
  match r with
  | Ok _ => true
  | Raise e => is_ClientError e
  end.

(** ** Sample inputs *)

Module Sample.

Definition raw_frame : frame :=
  {| height := 480; width := 640; pixels := [17; 34; 51]; drawn := [] |}.

Definition jpeg : bytes := [255; 216; 255].

Definition no_key : Z := -1.

Definition one_face : FaceDetail :=
  {| face_BoundingBox :=
       Some {| Left := lit 1 10; Top := lit 2 10;
               Width := lit 3 10; Height := lit 4 10 |};
     face_Confidence := Some (of_Z 99);
     face_AgeRange := Some {| Low := 20; High := 30 |} |}.

Definition person : Label := {| Name := "Person"; Confidence := of_Z 98 |}.

(** A world where everything works: the given key at the given second. *)
Definition healthy (now k : Z) : world :=
  {| cap_read := Ok (true, raw_frame);
     time_time := of_Z now;
     waitKey := Ok k;
     imencode := fun _ => Ok (true, jpeg);
     rekognition_detect_faces :=
       fun _ _ => Ok {| FaceDetails := Some [one_face] |};
     rekognition_detect_labels :=
       fun _ _ _ => Ok {| Labels := Some [person] |} |}.

Definition at_ (frames last : Z) : loop_state :=
  {| frame_count := frames; last_analysis_time := of_Z last |}.

(** The service answers both calls with the given failure. *)
Definition failing (e : exn) (now k : Z) : world :=
  {| cap_read := Ok (true, raw_frame);
     time_time := of_Z now;
     waitKey := Ok k;
     imencode := fun _ => Ok (true, jpeg);
     rekognition_detect_faces := fun _ _ => Raise e;
     rekognition_detect_labels := fun _ _ _ => Raise e |}.

Definition throttled : Z -> Z -> world :=
  failing (ClientError "ThrottlingException").

(** No route to the service: botocore raises an exception that is not a
    [ClientError]. *)
Definition offline : Z -> Z -> world :=
  failing (OtherException "EndpointConnectionError").

(** The encoder raises. *)
Definition unencodable (now k : Z) : world :=
  {| cap_read := Ok (true, raw_frame);
     time_time := of_Z now;
     waitKey := Ok k;
     imencode := fun _ => Raise (OtherException "cv2.error");
     rekognition_detect_faces :=
       fun _ _ => Ok {| FaceDetails := Some [one_face] |};
     rekognition_detect_labels :=
       fun _ _ _ => Ok {| Labels := Some [person] |} |}.

(** [cap.read()] returns [(False, None)]. *)
Definition no_frame : frame :=
  {| height := 0; width := 0; pixels := []; drawn := [] |}.

Definition end_of_stream (now : Z) : world :=
  {| cap_read := Ok (false, no_frame);
     time_time := of_Z now;
     waitKey := Ok no_key;
     imencode := fun _ => Ok (true, jpeg);
     rekognition_detect_faces := fun _ _ => Ok {| FaceDetails := None |};
     rekognition_detect_labels := fun _ _ _ => Ok {| Labels := None |} |}.

(** Ctrl-C while the loop waits for the camera. *)
Definition interrupted (now : Z) : world :=
  {| cap_read := Raise KeyboardInterrupt;
     time_time := of_Z now;
     waitKey := Ok no_key;
     imencode := fun _ => Ok (true, jpeg);
     rekognition_detect_faces := fun _ _ => Ok {| FaceDetails := None |};
     rekognition_detect_labels := fun _ _ _ => Ok {| Labels := None |} |}.

Definition dog : Label := {| Name := "Dog"; Confidence := of_Z 42 |}.

(** A service that applies the two parameters of a label request to what
    it sees, and rejects a negative [MaxLabels]. *)
Definition selective (now k : Z) : world :=
  {| cap_read := Ok (true, raw_frame);
     time_time := of_Z now;
     waitKey := Ok k;
     imencode := fun _ => Ok (true, jpeg);
     rekognition_detect_faces :=
       fun _ _ => Ok {| FaceDetails := Some [one_face] |};
     rekognition_detect_labels :=
       fun _ max_labels min_confidence =>
         if max_labels <? 0
         then Raise (ClientError "InvalidParameterException")
         else Ok {| Labels :=
                      Some (firstn (Z.to_nat max_labels)
                              (filter (fun l => ge_int (Confidence l)
                                                  min_confidence)
                                 [person; dog])) |} |}.

Definition session_of (ws : list world) : session :=
  {| isOpened := true; start_time := of_Z 0; ticks := ws;
     before_try := None |}.

End Sample.

(** ** More observations on traces *)

(** The events of the analysis branch: its printed lines and its requests. *)
Definition is_analysis_event (ev : event) : bool :=
  match ev with
  | Print (MsgAnalyzing _)
  | Print (MsgErrorDetectingFaces _)
  | Print (MsgErrorDetectingLabels _)
  | Print (MsgDetectionResults _ _ _)
  | DetectFacesRequest _ _
  | DetectLabelsRequest _ _ _ => true
  | _ => false
  end.

(** The events an iteration of the loop can leave. *)
Definition is_loop_event (ev : event) : bool :=
  match ev with
  | ImShow _ | Print MsgCouldNotReadFrame => true
  | _ => is_analysis_event ev
  end.


(** The loop printed that the camera gave no frame. *)
Definition is_read_failure (ev : event) : bool :=
  match ev with Print MsgCouldNotReadFrame => true | _ => false end.

Definition read_failed (t : list event) : bool := existsb is_read_failure t.

(** The images sent with the face requests of a trace, and with its label
    requests. *)
Definition faces_request_image (ev : event) : list bytes :=
  match ev with DetectFacesRequest image _ => [image] | _ => [] end.

Definition labels_request_image (ev : event) : list bytes :=
  match ev with DetectLabelsRequest image _ _ => [image] | _ => [] end.

Definition faces_requests (t : list event) : list bytes :=
  flat_map faces_request_image t.

Definition labels_requests (t : list event) : list bytes :=
  flat_map labels_request_image t.

(** The face carries an ['AgeRange']. *)
Definition has_age_range (face : FaceDetail) : bool :=
  match face_AgeRange face with Some _ => true | None => false end.

(** ** The printed report, line by line *)

Module Report.

(** The value of ['Gender']: both keys are read with [gender.get(...)]. *)
Record Gender : Type := {
  gender_Value : option string;
  gender_Confidence : option float
}.

(** An entry of ['Emotions']: both keys are read with [x[...]]. *)
Record Emotion : Type := {
  emotion_Type : string;
  emotion_Confidence : float
}.

(** A face with the keys that only the report reads. *)
Record FaceAttributes : Type := {
  attr_face : FaceDetail;
  attr_Gender : option Gender;
  attr_Emotions : option (list Emotion)
}.

(** The lines [print_detection_results] writes. *)
Inductive line : Type :=
| LineFrame (frame_count : Z)            (* "--- Frame {n} Analysis ---" *)
| LineFacesDetected (n : nat)            (* "Detected {n} face(s):" *)
| LineFace (i : nat) (confidence : float)
| LineAge (low high : Z)
| LineGender (value : option string) (confidence : float)
| LineEmotion (type : string) (confidence : float)
| LineNoFaces
| LineLabelsDetected (n : nat)           (* "Detected {n} object(s)/label(s):" *)
| LineLabel (name : string) (confidence : float)
| LineNoObjects
| LineRule.                              (* "-" * 40 *)

(** The loop of [max(iterable, key=...)]: a later item replaces the current
    one only when its key is strictly greater. *)
Fixpoint max_from {A} (key : A -> float) (best : A) (rest : list A) : A :=
  match rest with
  | [] => best
  | x :: rest' =>
      if ltb (key best) (key x) then max_from key x rest'
      else max_from key best rest'
  end.

(** [max(items, key=key)]: an empty sequence raises [ValueError]. *)
Definition max_ {A} (key : A -> float) (items : list A) : result A :=
  match items with
  | [] => Raise ValueError
  | x :: rest => Ok (max_from key x rest)
  end.

(** [bool(gender)]: a dictionary is true when it has a key. *)
Definition gender_truthy (g : Gender) : bool :=
  match gender_Value g, gender_Confidence g with
  | None, None => false
  | _, _ => true
  end.

(** The lines of one face, up to the emotion line. *)
Definition face_head_lines (i : nat) (face : FaceAttributes) : list line :=
  [LineFace i (get (face_Confidence (attr_face face)) (of_Z 0))]
  ++ match face_AgeRange (attr_face face) with
     | Some age_range => [LineAge (Low age_range) (High age_range)]
     | None => []
     end
  ++ match attr_Gender face with
     | Some gender =>
         if gender_truthy gender
         then [LineGender (gender_Value gender)
                 (get (gender_Confidence gender) (of_Z 0))]
         else []
     | None => []
     end.

(** The body of [for i, face in enumerate(faces, 1)]. *)
Definition face_lines (i : nat) (face : FaceAttributes)
  : list line * result unit :=
  match get (attr_Emotions face) [] with
  | [] => (face_head_lines i face, Ok tt)
  | emotions =>
      match max_ emotion_Confidence emotions with
      | Ok top_emotion =>
          (face_head_lines i face
             ++ [LineEmotion (emotion_Type top_emotion)
                   (emotion_Confidence top_emotion)], Ok tt)
      | Raise e => (face_head_lines i face, Raise e)
      end
  end.

Fixpoint faces_lines (i : nat) (faces : list FaceAttributes)
  : list line * result unit :=
  match faces with
  | [] => ([], Ok tt)
  | face :: rest =>
      match face_lines i face with
      | (l, Ok _) => let (l', r) := faces_lines (S i) rest in (l ++ l', r)
      | (l, Raise e) => (l, Raise e)
      end
  end.

(** The lines of [for label in labels[:5]]. *)
Definition labels_lines (labels : list Label) : list line :=
  match labels with
  | [] => [LineNoObjects]
  | _ =>
      LineLabelsDetected (List.length labels)
        :: map (fun label => LineLabel (Name label) (Confidence label))
             (firstn 5 labels)
  end.

(** [print_detection_results], with the lines it prints written out. *)
Definition print_detection_results_lines (faces : list FaceAttributes)
    (labels : list Label) (frame_count : Z) : list line * result unit :=
  match faces with
  | [] =>
      (LineFrame frame_count :: LineNoFaces :: labels_lines labels
         ++ [LineRule], Ok tt)
  | _ =>
      match faces_lines 1 faces with
      | (l, Ok _) =>
          (LineFrame frame_count :: LineFacesDetected (List.length faces)
             :: l ++ labels_lines labels ++ [LineRule], Ok tt)
      | (l, Raise e) =>
          (LineFrame frame_count :: LineFacesDetected (List.length faces)
             :: l, Raise e)
      end
  end.

(** An entry of ['Labels'] as the report reads it: ['Name'] and
    ['Confidence'] are read with [label[...]], and either may be missing. *)
Record LabelDict : Type := {
  dict_Name : option string;
  dict_Confidence : option float
}.

(** A [Label] is a dictionary that has both keys. *)
Definition dict_of_label (label : Label) : LabelDict :=
  {| dict_Name := Some (Name label);
     dict_Confidence := Some (Confidence label) |}.

Definition has_label_keys (label : LabelDict) : bool :=
  match dict_Name label, dict_Confidence label with
  | Some _, Some _ => true
  | _, _ => false
  end.

(** The body of [for label in labels[:5]], label after label: the two keys
    are read before the line is printed. *)
Fixpoint label_dict_lines (labels : list LabelDict)
  : list line * result unit :=
  match labels with
  | [] => ([], Ok tt)
  | label :: rest =>
      match getitem (dict_Name label) "Name" with
      | Raise e => ([], Raise e)
      | Ok name =>
          match getitem (dict_Confidence label) "Confidence" with
          | Raise e => ([], Raise e)
          | Ok confidence =>
              let (ls, r) := label_dict_lines rest in
              (LineLabel name confidence :: ls, r)
          end
      end
  end.

Definition labels_dicts_lines (labels : list LabelDict)
  : list line * result unit :=
  match labels with
  | [] => ([LineNoObjects], Ok tt)
  | _ =>
      let (ls, r) := label_dict_lines (firstn 5 labels) in
      (LineLabelsDetected (List.length labels) :: ls, r)
  end.

(** [print_detection_results] on labels that may lack a key: what is
    printed up to a [KeyError], or up to the closing rule. *)
Definition print_detection_results_dicts (faces : list FaceAttributes)
    (labels : list LabelDict) (frame_count : Z) : list line * result unit :=
  let face_part :=
    match faces with
    | [] => ([LineNoFaces], Ok tt)
    | _ =>
        let (l, r) := faces_lines 1 faces in
        (LineFacesDetected (List.length faces) :: l, r)
    end in
  match face_part with
  | (fl, Raise e) => (LineFrame frame_count :: fl, Raise e)
  | (fl, Ok _) =>
      match labels_dicts_lines labels with
      | (ll, Ok _) => (LineFrame frame_count :: fl ++ ll ++ [LineRule], Ok tt)
      | (ll, Raise e) => (LineFrame frame_count :: fl ++ ll, Raise e)
      end
  end.

(** Five labels with their keys, and a sixth and a seventh without. *)
Definition sample_label_dicts : list LabelDict :=
  map (fun c => {| dict_Name := Some "Label"%string;
                   dict_Confidence := Some (of_Z c) |})
    [99; 97; 95; 90; 85]
  ++ [{| dict_Name := None; dict_Confidence := Some (of_Z 80) |};
      {| dict_Name := Some "Label"%string; dict_Confidence := None |}].

(** The label lines of a report, the numbers of its face lines, and its
    emotion lines. *)
Definition label_of_line (l : line) : list (string * float) :=
  match l with LineLabel name confidence => [(name, confidence)] | _ => [] end.

Definition face_number_of_line (l : line) : list nat :=
  match l with LineFace i _ => [i] | _ => [] end.

Definition printed_labels (ls : list line) : list (string * float) :=
  flat_map label_of_line ls.

Definition printed_face_numbers (ls : list line) : list nat :=
  flat_map face_number_of_line ls.

(** A report of two faces and seven labels. *)
Definition sample_emotions : list Emotion :=
  [{| emotion_Type := "CALM"; emotion_Confidence := of_Z 40 |};
   {| emotion_Type := "HAPPY"; emotion_Confidence := of_Z 55 |};
   {| emotion_Type := "SURPRISED"; emotion_Confidence := of_Z 55 |}].

Definition sample_faces : list FaceAttributes :=
  [{| attr_face := Sample.one_face;
      attr_Gender := Some {| gender_Value := Some "Female"%string;
                             gender_Confidence := Some (of_Z 97) |};
      attr_Emotions := Some sample_emotions |};
   {| attr_face := {| face_BoundingBox := None; face_Confidence := None;
                      face_AgeRange := None |};
      attr_Gender := None;
      attr_Emotions := Some [] |}].

Definition sample_labels : list Label :=
  map (fun c => {| Name := "Label"; Confidence := of_Z c |})
    [99; 97; 95; 90; 85; 80; 75].

End Report.

(** ** Sample inputs for the edge cases *)

Module Edge.

(** The encoder reports failure and hands back an empty buffer; the service
    rejects it. *)
Definition flag_down : world :=
  {| cap_read := Ok (true, Sample.raw_frame);
     time_time := of_Z 13;
     waitKey := Ok 32;
     imencode := fun _ => Ok (false, []);
     rekognition_detect_faces :=
       fun _ _ => Raise (ClientError "InvalidImageFormatException");
     rekognition_detect_labels :=
       fun _ _ _ => Raise (ClientError "InvalidImageFormatException") |}.

(** The service answers without the two list keys. *)
Definition keyless : world :=
  {| cap_read := Ok (true, Sample.raw_frame);
     time_time := of_Z 13;
     waitKey := Ok 32;
     imencode := fun _ => Ok (true, Sample.jpeg);
     rekognition_detect_faces := fun _ _ => Ok {| FaceDetails := None |};
     rekognition_detect_labels := fun _ _ _ => Ok {| Labels := None |} |}.

(** Ctrl-C after the camera opened and two of the four lines were printed,
    before [try:] is entered. *)
Definition interrupted_at_start : session :=
  {| isOpened := true; start_time := of_Z 0;
     ticks := [Sample.healthy 13 32];
     before_try := Some (2%nat, KeyboardInterrupt) |}.

(** The same world with another key code. *)
Definition with_key (w : world) (k : Z) : world :=
  {| cap_read := cap_read w;
     time_time := time_time w;
     waitKey := Ok k;
     imencode := imencode w;
     rekognition_detect_faces := rekognition_detect_faces w;
     rekognition_detect_labels := rekognition_detect_labels w |}.

(** A face that came without its box. *)
Definition boxless : FaceDetail :=
  {| face_BoundingBox := None; face_Confidence := Some (of_Z 80);
     face_AgeRange := None |}.

End Edge.

(** ** Properties *)

(** *** The trace monad *)

Lemma bind_ret_l {A B} (a : A) (k : A -> M B) : bind ([], Ok a) k = k a.
Proof. unfold bind. destruct (k a); reflexivity. Qed.

Lemma bind_emit {B} (ev : event) (k : unit -> M B) :
  bind (emit ev) k = (ev :: fst (k tt), snd (k tt)).
Proof. unfold bind, emit. destruct (k tt); reflexivity. Qed.

Lemma bind_Ok {A B} (t : list event) (a : A) (k : A -> M B) :
  bind (t, Ok a) k = (t ++ fst (k a), snd (k a)).
Proof. unfold bind. destruct (k a); reflexivity. Qed.

Lemma bind_lift_Ok {A B} (a : A) (k : A -> M B) : bind (lift (Ok a)) k = k a.
Proof. apply bind_ret_l. Qed.

(** *** The two service calls, case by case *)

Lemma detect_faces_cases (w : world) (b : bytes) :
  detect_faces w b =
  match rekognition_detect_faces w b ["ALL"%string] with
  | Ok r => ([DetectFacesRequest b ["ALL"%string]],
             Ok (get (FaceDetails r) []))
  | Raise e =>
      if is_ClientError e
      then ([DetectFacesRequest b ["ALL"%string];
             Print (MsgErrorDetectingFaces e)], Ok [])
      else ([DetectFacesRequest b ["ALL"%string]], Raise e)
  end.
Proof.
  unfold detect_faces. rewrite bind_emit.
  destruct (rekognition_detect_faces w b ["ALL"%string]) as [r|e].
  - reflexivity.
  - simpl. destruct (is_ClientError e); reflexivity.
Qed.

Lemma detect_labels_cases (w : world) (b : bytes) :
  detect_labels w b =
  match rekognition_detect_labels w b MaxLabels MinConfidence with
  | Ok r => ([DetectLabelsRequest b MaxLabels MinConfidence],
             Ok (get (Labels r) []))
  | Raise e =>
      if is_ClientError e
      then ([DetectLabelsRequest b MaxLabels MinConfidence;
             Print (MsgErrorDetectingLabels e)], Ok [])
      else ([DetectLabelsRequest b MaxLabels MinConfidence], Raise e)
  end.
Proof.
  unfold detect_labels. rewrite bind_emit.
  destruct (rekognition_detect_labels w b MaxLabels MinConfidence) as [r|e].
  - reflexivity.
  - simpl. destruct (is_ClientError e); reflexivity.
Qed.

Lemma fst_detect_faces (w : world) (b : bytes) :
  exists t, fst (detect_faces w b) = DetectFacesRequest b ["ALL"%string] :: t.
Proof.
  rewrite detect_faces_cases.
  destruct (rekognition_detect_faces w b ["ALL"%string]) as [r|e];
    [|destruct (is_ClientError e)]; eexists; reflexivity.
Qed.

(** *** One iteration, once the frame is read and the key polled *)

Lemma loop_body_polled (n : Z) (st : loop_state) (w : world) (f : frame) (k : Z) :
  cap_read w = Ok (true, f) -> waitKey w = Ok k ->
  loop_body n st w =
  let frame_count := frame_count st + 1 in
  match key_branch (Z.land k 255) frame_count n with
  | Raise e => ([], Raise e)
  | Ok DoBreak =>
      ([], Ok (Break {| frame_count := frame_count;
                        last_analysis_time := last_analysis_time st |}))
  | Ok b =>
      if analyze_frame_of b
         && gt_int (sub (time_time w) (last_analysis_time st)) 2
      then
        match analysis w f frame_count with
        | (t, Ok f') =>
            (t ++ [ImShow (caption f' frame_count)],
             Ok (Next {| frame_count := frame_count;
                         last_analysis_time := time_time w |}))
        | (t, Raise e) => (t, Raise e)
        end
      else
        ([ImShow (caption f frame_count)],
         Ok (Next {| frame_count := frame_count;
                     last_analysis_time := last_analysis_time st |}))
  end.
Proof.
  intros Hread Hkey. unfold loop_body. rewrite Hread, bind_lift_Ok. cbn [negb].
  rewrite Hkey, bind_lift_Ok.
  destruct (key_branch _ _ _) as [b|e]; [rewrite bind_lift_Ok|reflexivity].
  cbv zeta.
  destruct b; reflexivity.
Qed.

Lemma analysis_cases (w : world) (f : frame) (fc : Z) :
  analysis w f fc =
  match imencode w f with
  | Raise e => ([Print (MsgAnalyzing fc)], Raise e)
  | Ok (_, buf) =>
      match detect_faces w buf with
      | (t1, Raise e) => (Print (MsgAnalyzing fc) :: t1, Raise e)
      | (t1, Ok faces) =>
          match detect_labels w buf with
          | (t2, Raise e) => (Print (MsgAnalyzing fc) :: t1 ++ t2, Raise e)
          | (t2, Ok labels) =>
              (Print (MsgAnalyzing fc) :: t1 ++ t2
                 ++ [Print (MsgDetectionResults faces labels fc)],
               draw_face_boxes f faces)
          end
      end
  end.
Proof.
  unfold analysis, encode_image. rewrite bind_emit.
  destruct (imencode w f) as [[flag buf]|e]; [|reflexivity].
  rewrite bind_lift_Ok. change (ret buf) with (@lift bytes (Ok buf)).
  rewrite bind_lift_Ok.
  destruct (detect_faces w buf) as [t1 [faces|e]]; [|reflexivity].
  rewrite bind_Ok.
  destruct (detect_labels w buf) as [t2 [labels|e]]; [|reflexivity].
  rewrite bind_Ok. unfold print_detection_results. rewrite bind_emit.
  reflexivity.
Qed.

Lemma key_branch_analyze (n fc k : Z) :
  match key_branch (Z.land k 255) fc n with
  | Ok b => analyze_frame_of b = manual_trigger k || cadence_fires n fc
  | Raise _ => manual_trigger k || cadence_fires n fc = false
  end.
Proof.
  unfold key_branch, manual_trigger, cadence_fires, mod_.
  destruct (Z.land k 255 =? ord_space); [reflexivity|].
  destruct (n =? 0); [reflexivity|].
  destruct (fc mod n =? 0); [reflexivity|].
  destruct (Z.land k 255 =? ord_q); reflexivity.
Qed.

Lemma analysis_calls_service (w : world) (f : frame) (fc : Z)
    (flag : bool) (buf : bytes) :
  imencode w f = Ok (flag, buf) ->
  exists t, fst (analysis w f fc)
            = Print (MsgAnalyzing fc)
                :: DetectFacesRequest buf ["ALL"%string] :: t.
Proof.
  intros Henc. rewrite analysis_cases, Henc.
  destruct (fst_detect_faces w buf) as [t Ht].
  destruct (detect_faces w buf) as [t1 [faces|e]]; cbn [fst] in Ht; subst t1.
  - destruct (detect_labels w buf) as [t2 [labels|e]]; eexists; reflexivity.
  - eexists; reflexivity.
Qed.

(** *** The decision rule *)

(** C1 (as stated) fails at the boundary of the rate limit: the space bar is
    pressed exactly 2 seconds after the last analysis; the rule of the
    specification says analyze, the loop passes the frame through. *)
Lemma interval_of_exactly_two_seconds_not_analysed :
  ~ (remote_analysis_performed
       (fst (loop_body 30 (Sample.at_ 4 10) (Sample.healthy 12 32)))
     = spec_should_analyze 30 (Sample.at_ 4 10) 32 (of_Z 12)).
Proof. vm_compute. discriminate. Qed.

(** C1 (amended): on every iteration whose frame was read, whose key was
    polled and whose frame the encoder accepted, the remote service is called
    if and only if (the space bar was pressed or the frame count is a
    multiple of a non-zero cadence) and strictly more than 2 seconds have
    passed since the last analysis; a trigger suppressed by the rate limit
    leaves an iteration that only shows the captioned frame and keeps the
    timestamp. *)
Theorem analysis_iff_triggered_and_interval_exceeded
    (n : Z) (st : loop_state) (w : world) (f : frame) (k : Z)
    (flag : bool) (buf : bytes) :
  cap_read w = Ok (true, f) ->
  waitKey w = Ok k ->
  imencode w f = Ok (flag, buf) ->
  remote_analysis_performed (fst (loop_body n st w))
  = (manual_trigger k || cadence_fires n (frame_count st + 1))
    && gt_int (sub (time_time w) (last_analysis_time st)) 2
  /\ (manual_trigger k || cadence_fires n (frame_count st + 1) = true ->
      gt_int (sub (time_time w) (last_analysis_time st)) 2 = false ->
      loop_body n st w
      = ([ImShow (caption f (frame_count st + 1))],
         Ok (Next {| frame_count := frame_count st + 1;
                     last_analysis_time := last_analysis_time st |}))).
Proof.
  intros Hread Hkey Henc. rewrite (loop_body_polled n st w f k Hread Hkey).
  cbv zeta. pose proof (key_branch_analyze n (frame_count st + 1) k) as Hb.
  destruct (key_branch _ _ _) as [b|e].
  - rewrite <- Hb. destruct b; cbn [analyze_frame_of andb].
    + destruct (gt_int _ _).
      * split; [|discriminate].
        destruct (analysis_calls_service w f (frame_count st + 1) flag buf Henc)
          as [t Ht].
        destruct (analysis _ _ _) as [ta [f'|e]]; cbn [fst] in Ht; subst ta;
          reflexivity.
      * split; reflexivity.
    + split; [reflexivity|discriminate].
    + split; [reflexivity|discriminate].
  - rewrite Hb. split; [reflexivity|discriminate].
Qed.

Lemma analysis_iff_triggered_witness :
  remote_analysis_performed
    (fst (loop_body 30 (Sample.at_ 4 10) (Sample.healthy 13 32))) = true.
Proof.
  exact (proj1 (analysis_iff_triggered_and_interval_exceeded
                  30 (Sample.at_ 4 10) (Sample.healthy 13 32)
                  Sample.raw_frame 32 true Sample.jpeg
                  eq_refl eq_refl eq_refl)).
Defined.

(** *** The quit signal *)

(** C2: the claim fails on the code at the 30th frame of a session with a
    cadence of 30 when [q] is pressed: the cadence branch of the chain is
    taken, the quit branch is not reached, and the loop goes on to the next
    iteration. *)
Lemma quit_on_cadence_tick_keeps_running :
  quit_signal 113 = true
  /\ key_branch (Z.land 113 255) 30 30 = Ok SetAnalyze
  /\ next_state (loop_body 30 (Sample.at_ 29 10) (Sample.healthy 11 113))
     = Some (Sample.at_ 30 10).
Proof. vm_compute. repeat split. Qed.

(** *** A cadence that is not positive *)

(** C3 (as stated) fails: with a cadence of 0 an iteration without the space
    bar raises [ZeroDivisionError]; with a cadence of -30 the 30th frame is
    analysed without the space bar. *)
Lemma nonpositive_cadence_raises_or_fires :
  snd (loop_body 0 (Sample.at_ 0 0) (Sample.healthy 5 Sample.no_key))
  = Raise ZeroDivisionError
  /\ manual_trigger Sample.no_key = false
  /\ remote_analysis_performed
       (fst (loop_body (-30) (Sample.at_ 29 10)
               (Sample.healthy 13 Sample.no_key))) = true.
Proof. vm_compute. repeat split. Qed.

Lemma loop_body_analysis_needs_branch (n : Z) (st : loop_state) (w : world) :
  remote_analysis_performed (fst (loop_body n st w)) = true ->
  exists k, waitKey w = Ok k
            /\ key_branch (Z.land k 255) (frame_count st + 1) n = Ok SetAnalyze.
Proof.
  unfold loop_body.
  destruct (cap_read w) as [[[|] f]|e]; [| discriminate | discriminate].
  rewrite bind_lift_Ok. cbn [negb].
  destruct (waitKey w) as [k|e]; [|discriminate].
  rewrite bind_lift_Ok. intros H. exists k. split; [reflexivity|].
  destruct (key_branch _ _ _) as [[| |]|e]; try reflexivity; discriminate.
Qed.

(** C3 (amended): with a negative cadence the decision rule raises no
    division error and periodic triggering stays enabled, firing when the
    frame count is a multiple of the cadence; with a cadence of 0 the rule is
    evaluated without error on an iteration with the space bar pressed, and
    no iteration without it performs an analysis. *)
Theorem nonpositive_cadence_behaviour (n : Z) (st : loop_state) (w : world)
    (k : Z) :
  n <= 0 ->
  (n < 0 ->
   exists b, key_branch (Z.land k 255) (frame_count st + 1) n = Ok b
             /\ (analyze_frame_of b = true <->
                 manual_trigger k = true \/ (n | frame_count st + 1)))
  /\ (n = 0 ->
      (manual_trigger k = true ->
       key_branch (Z.land k 255) (frame_count st + 1) n = Ok SetAnalyze)
      /\ (waitKey w = Ok k ->
          remote_analysis_performed (fst (loop_body n st w)) = true ->
          manual_trigger k = true)).
Proof.
  intros Hn. split.
  - intros Hneg. unfold key_branch, manual_trigger, mod_.
    destruct (Z.land k 255 =? ord_space) eqn:Hs.
    + exists SetAnalyze. split; [reflexivity|]. cbn. tauto.
    + assert (Hnz : (n =? 0) = false) by (apply Z.eqb_neq; lia).
      rewrite Hnz.
      assert (Hdiv : ((frame_count st + 1) mod n =? 0) = true
                     <-> (n | frame_count st + 1)).
      { rewrite Z.eqb_eq. apply Z.mod_divide. lia. }
      destruct ((frame_count st + 1) mod n =? 0).
      * exists SetAnalyze. split; [reflexivity|]. cbn. tauto.
      * assert (Hnd : ~ (n | frame_count st + 1))
          by (intros D; apply Hdiv in D; discriminate).
        destruct (Z.land k 255 =? ord_q); eexists; (split; [reflexivity|]);
          cbn; split; try discriminate; intros [?|?]; try discriminate;
          contradiction.
  - intros ->. split.
    + unfold key_branch, manual_trigger. now intros ->.
    + intros Hk Ha.
      destruct (loop_body_analysis_needs_branch 0 st w Ha) as [k' [Hk' Hb]].
      rewrite Hk in Hk'. injection Hk' as <-.
      unfold key_branch, mod_ in Hb. unfold manual_trigger.
      destruct (Z.land k 255 =? ord_space); [reflexivity|discriminate].
Qed.

Lemma nonpositive_cadence_witness :
  exists b, key_branch (Z.land Sample.no_key 255) (29 + 1) (-30) = Ok b
            /\ (analyze_frame_of b = true <->
                manual_trigger Sample.no_key = true \/ (-30 | 29 + 1)).
Proof.
  apply (nonpositive_cadence_behaviour (-30) (Sample.at_ 29 10)
           (Sample.healthy 13 Sample.no_key) Sample.no_key); lia.
Defined.

(** *** The timestamp of the last analysis *)

Lemma fst_analysis (w : world) (f : frame) (fc : Z) :
  exists t, fst (analysis w f fc) = Print (MsgAnalyzing fc) :: t.
Proof. unfold analysis. rewrite bind_emit. eexists; reflexivity. Qed.

(** C4 (as stated) fails: both service calls are throttled, the tick
    completes all the same and the timestamp moves from 10 to 13. *)
Lemma timestamp_advanced_after_failed_calls :
  rekognition_detect_faces (Sample.throttled 13 32) Sample.jpeg ["ALL"%string]
  = Raise (ClientError "ThrottlingException")
  /\ ~ (forall st',
          next_state (loop_body 30 (Sample.at_ 4 10) (Sample.throttled 13 32))
          = Some st' ->
          last_analysis_time st' = last_analysis_time (Sample.at_ 4 10)).
Proof.
  split; [reflexivity|]. intros H.
  specialize (H (Sample.at_ 5 13)). vm_compute in H.
  specialize (H eq_refl). discriminate H.
Qed.

(** C4 (amended): over an iteration the timestamp of the last analysis moves
    to the current time exactly when the analysis branch was entered and ran
    to its end, whatever the service calls returned or absorbed; after an
    iteration that did not enter the branch it is unchanged. *)
Theorem timestamp_advanced_iff_analysis_ran (n : Z) (st st' : loop_state)
    (w : world) :
  next_state (loop_body n st w) = Some st' ->
  last_analysis_time st'
  = if analysis_attempted (fst (loop_body n st w))
    then time_time w
    else last_analysis_time st.
Proof.
  unfold next_state.
  destruct (cap_read w) as [[[|] f]|e] eqn:Hread;
    [| unfold loop_body; rewrite Hread; discriminate
     | unfold loop_body; rewrite Hread; discriminate].
  destruct (waitKey w) as [k|e] eqn:Hkey;
    [| unfold loop_body; rewrite Hread, bind_lift_Ok; cbn [negb];
       rewrite Hkey; discriminate].
  rewrite (loop_body_polled n st w f k Hread Hkey). cbv zeta.
  destruct (key_branch _ _ _) as [b|e]; [|discriminate].
  destruct b; cbn [analyze_frame_of andb]; try discriminate.
  - destruct (gt_int _ _).
    + destruct (fst_analysis w f (frame_count st + 1)) as [t Ht].
      destruct (analysis _ _ _) as [ta [f'|e]]; [|discriminate].
      cbn [fst] in Ht; subst ta. cbn. now intros [= <-].
    + cbn. now intros [= <-].
  - cbn. now intros [= <-].
Qed.

Lemma timestamp_advanced_witness :
  last_analysis_time (Sample.at_ 5 13) = of_Z 13.
Proof.
  exact (timestamp_advanced_iff_analysis_ran
           30 (Sample.at_ 4 10) (Sample.at_ 5 13) (Sample.throttled 13 32)
           eq_refl).
Defined.

(** *** Failures of the service calls *)

Lemma shown_app (t1 t2 : list event) : shown (t1 ++ t2) = shown t1 ++ shown t2.
Proof.
  induction t1 as [|ev t1 IH]; [reflexivity|].
  destruct ev; cbn; rewrite IH; reflexivity.
Qed.

(** C5 (as stated) fails: a failure that is not a [ClientError] leaves
    [detect_faces] as an exception, ends the iteration and ends the session,
    although the world had more frames to give. *)
Lemma connection_failure_ends_session :
  snd (detect_faces (Sample.offline 13 32) Sample.jpeg)
  = Raise (OtherException "EndpointConnectionError")
  /\ next_state (loop_body 1 (Sample.at_ 0 0) (Sample.offline 13 32)) = None
  /\ snd (run_video_analysis
            (Sample.session_of [Sample.offline 13 32; Sample.healthy 14 32;
                                Sample.healthy 17 32]) 1)
     = Propagated (OtherException "EndpointConnectionError").
Proof. vm_compute. repeat split. Qed.

(** The exception that left the loop is the one [main] prints, with the
    hints, before it returns. *)
Example main_prints_connection_failure :
  snd (main (Ok tt)
         (Sample.session_of [Sample.offline 13 32; Sample.healthy 14 32]))
  = Returned
  /\ exists pre,
       fst (main (Ok tt)
              (Sample.session_of [Sample.offline 13 32; Sample.healthy 14 32]))
       = pre ++ teardown
           ++ application_error (OtherException "EndpointConnectionError").
Proof.
  split; [reflexivity|].
  exists (banner ++ [Print MsgClientInitialized] ++ startup 60
            ++ [Print (MsgAnalyzing 1);
                DetectFacesRequest Sample.jpeg ["ALL"%string]]).
  reflexivity.
Qed.

(** C5 (amended): on an iteration that attempts an analysis, a service call
    that fails with a [ClientError] is turned by [detect_faces] or
    [detect_labels] into a printed line and an empty list; when both calls
    returned or failed that way, the loop goes on to the next iteration
    showing the frame that the renderer returns for the faces kept.  A call
    that fails with an exception of any other class is not caught there: the
    exception leaves [detect_faces] or [detect_labels] as it is, and leaves
    the loop. *)
Theorem client_error_absorbed_as_empty (n : Z) (st : loop_state) (w : world)
    (f : frame) (k : Z) (flag : bool) (buf : bytes) :
  cap_read w = Ok (true, f) ->
  waitKey w = Ok k ->
  imencode w f = Ok (flag, buf) ->
  (manual_trigger k || cadence_fires n (frame_count st + 1))
  && gt_int (sub (time_time w) (last_analysis_time st)) 2 = true ->
  (absorbed (rekognition_detect_faces w buf ["ALL"%string]) = true ->
   absorbed (rekognition_detect_labels w buf MaxLabels MinConfidence) = true ->
   (forall e, rekognition_detect_faces w buf ["ALL"%string] = Raise e ->
              detect_faces w buf
              = ([DetectFacesRequest buf ["ALL"%string];
                  Print (MsgErrorDetectingFaces e)], Ok []))
   /\ (forall e, rekognition_detect_labels w buf MaxLabels MinConfidence
                 = Raise e ->
                 detect_labels w buf
                 = ([DetectLabelsRequest buf MaxLabels MinConfidence;
                     Print (MsgErrorDetectingLabels e)], Ok []))
   /\ exists faces,
        snd (detect_faces w buf) = Ok faces
        /\ forall f', draw_face_boxes f faces = Ok f' ->
             next_state (loop_body n st w)
             = Some {| frame_count := frame_count st + 1;
                       last_analysis_time := time_time w |}
             /\ shown (fst (loop_body n st w))
                = [caption f' (frame_count st + 1)])
  /\ (forall e,
        rekognition_detect_faces w buf ["ALL"%string] = Raise e ->
        is_ClientError e = false ->
        detect_faces w buf
        = ([DetectFacesRequest buf ["ALL"%string]], Raise e)
        /\ forall rest,
             while_true n st (w :: rest)
             = ([Print (MsgAnalyzing (frame_count st + 1));
                 DetectFacesRequest buf ["ALL"%string]], Raised e))
  /\ (forall e,
        absorbed (rekognition_detect_faces w buf ["ALL"%string]) = true ->
        rekognition_detect_labels w buf MaxLabels MinConfidence = Raise e ->
        is_ClientError e = false ->
        detect_labels w buf
        = ([DetectLabelsRequest buf MaxLabels MinConfidence], Raise e)
        /\ shown (fst (loop_body n st w)) = []
        /\ forall rest, snd (while_true n st (w :: rest)) = Raised e).
Proof.
  intros Hread Hkey Henc Htrig.
  assert (Hbody :
    loop_body n st w
    = match analysis w f (frame_count st + 1) with
      | (t, Ok f') =>
          (t ++ [ImShow (caption f' (frame_count st + 1))],
           Ok (Next {| frame_count := frame_count st + 1;
                       last_analysis_time := time_time w |}))
      | (t, Raise e) => (t, Raise e)
      end).
  { rewrite (loop_body_polled n st w f k Hread Hkey). cbv zeta.
    pose proof (key_branch_analyze n (frame_count st + 1) k) as Hb.
    apply andb_true_iff in Htrig as [Hm Hgt].
    destruct (key_branch _ _ _) as [b|e]; [|congruence].
    rewrite Hm in Hb.
    destruct b; try discriminate Hb. cbn [analyze_frame_of andb].
    now rewrite Hgt. }
  split; [|split].
  - intros Hf Hl. split; [|split].
    + intros e He. rewrite detect_faces_cases, He.
      rewrite He in Hf. cbn in Hf. now rewrite Hf.
    + intros e He. rewrite detect_labels_cases, He.
      rewrite He in Hl. cbn in Hl. now rewrite Hl.
    + assert (HF : exists tf faces, detect_faces w buf = (tf, Ok faces)
                                    /\ shown tf = []).
      { rewrite detect_faces_cases.
        destruct (rekognition_detect_faces w buf ["ALL"%string]) as [r|e].
        - do 2 eexists; split; reflexivity.
        - cbn in Hf. rewrite Hf. do 2 eexists; split; reflexivity. }
      assert (HL : exists tl labels, detect_labels w buf = (tl, Ok labels)
                                     /\ shown tl = []).
      { rewrite detect_labels_cases.
        destruct (rekognition_detect_labels w buf MaxLabels MinConfidence)
          as [r|e].
        - do 2 eexists; split; reflexivity.
        - cbn in Hl. rewrite Hl. do 2 eexists; split; reflexivity. }
      destruct HF as (tf & faces & HF & Htf), HL as (tl & labels & HL & Htl).
      exists faces. split; [now rewrite HF|].
      intros f' Hdraw.
      rewrite Hbody, analysis_cases, Henc, HF, HL, Hdraw.
      split; [reflexivity|].
      cbn [fst]. rewrite shown_app. cbn [shown].
      rewrite !shown_app, Htf, Htl. reflexivity.
  - intros e He Hce.
    assert (HF : detect_faces w buf
                 = ([DetectFacesRequest buf ["ALL"%string]], Raise e))
      by (now rewrite detect_faces_cases, He, Hce).
    split; [exact HF|]. intros rest. cbn [while_true].
    now rewrite Hbody, analysis_cases, Henc, HF.
  - intros e Hf He Hce.
    assert (HL : detect_labels w buf
                 = ([DetectLabelsRequest buf MaxLabels MinConfidence],
                    Raise e))
      by (now rewrite detect_labels_cases, He, Hce).
    split; [exact HL|].
    assert (HF : exists tf faces, detect_faces w buf = (tf, Ok faces)
                                  /\ shown tf = []).
    { rewrite detect_faces_cases.
      destruct (rekognition_detect_faces w buf ["ALL"%string]) as [r|e'].
      - do 2 eexists; split; reflexivity.
      - cbn in Hf. rewrite Hf. do 2 eexists; split; reflexivity. }
    destruct HF as (tf & faces & HF & Htf).
    assert (Hb : loop_body n st w
                 = (Print (MsgAnalyzing (frame_count st + 1))
                      :: tf ++ [DetectLabelsRequest buf MaxLabels
                                  MinConfidence], Raise e))
      by (now rewrite Hbody, analysis_cases, Henc, HF, HL).
    split.
    + rewrite Hb. cbn [fst shown]. now rewrite shown_app, Htf.
    + intros rest. cbn [while_true]. now rewrite Hb.
Qed.

Lemma client_error_absorbed_witness :
  next_state (loop_body 30 (Sample.at_ 4 10) (Sample.throttled 13 32))
  = Some {| frame_count := 4 + 1; last_analysis_time := of_Z 13 |}
  /\ shown (fst (loop_body 30 (Sample.at_ 4 10) (Sample.throttled 13 32)))
     = [caption Sample.raw_frame (4 + 1)].
Proof.
  destruct (client_error_absorbed_as_empty
              30 (Sample.at_ 4 10) (Sample.throttled 13 32)
              Sample.raw_frame 32 true Sample.jpeg
              eq_refl eq_refl eq_refl eq_refl)
    as (Habsorbed & _ & _).
  destruct (Habsorbed eq_refl eq_refl) as (_ & _ & faces & Hfaces & Hnext).
  injection Hfaces as <-. exact (Hnext Sample.raw_frame eq_refl).
Defined.

(** *** Teardown *)




(** The three ways out named by the specification, each on a session of one
    shown frame followed by the exit. *)
Example teardown_after_quit :
  run_video_analysis
    (Sample.session_of [Sample.healthy 1 Sample.no_key; Sample.healthy 2 113])
    30
  = (startup 30 ++ [ImShow (caption Sample.raw_frame 1)] ++ teardown,
     Returned).
Proof. reflexivity. Qed.

Example teardown_after_end_of_stream :
  run_video_analysis
    (Sample.session_of [Sample.healthy 1 Sample.no_key;
                        Sample.end_of_stream 2]) 30
  = (startup 30 ++ [ImShow (caption Sample.raw_frame 1);
                    Print MsgCouldNotReadFrame] ++ teardown,
     Returned).
Proof. reflexivity. Qed.

Example teardown_after_interruption :
  run_video_analysis
    (Sample.session_of [Sample.healthy 1 Sample.no_key;
                        Sample.interrupted 2]) 30
  = (startup 30 ++ [ImShow (caption Sample.raw_frame 1);
                    Print MsgStoppedByUser] ++ teardown,
     Returned).
Proof. reflexivity. Qed.

(** *** Failures of the encoder *)

(** C7 (as stated) fails: the encoder raises on a triggered iteration; the
    frame is not shown, there is no next iteration and the session ends with
    the exception, although the world had another frame to give. *)
Lemma encoder_failure_ends_session :
  shown (fst (loop_body 30 (Sample.at_ 4 10) (Sample.unencodable 13 32))) = []
  /\ next_state (loop_body 30 (Sample.at_ 4 10) (Sample.unencodable 13 32))
     = None
  /\ snd (run_video_analysis
            (Sample.session_of [Sample.unencodable 13 32;
                                Sample.healthy 14 Sample.no_key]) 30)
     = Propagated (OtherException "cv2.error").
Proof. vm_compute. repeat split. Qed.

(** C7 (amended): on an iteration that attempts an analysis, an exception
    raised by the encoder is not caught in the loop: the iteration ends after
    the line announcing the analysis, without a service call and without
    showing the frame, and the loop is left with that exception whatever
    frames were still to come. *)
Theorem encoder_exception_leaves_loop (n : Z) (st : loop_state) (w : world)
    (f : frame) (k : Z) (e : exn) (rest : list world) :
  cap_read w = Ok (true, f) ->
  waitKey w = Ok k ->
  (manual_trigger k || cadence_fires n (frame_count st + 1))
  && gt_int (sub (time_time w) (last_analysis_time st)) 2 = true ->
  imencode w f = Raise e ->
  loop_body n st w = ([Print (MsgAnalyzing (frame_count st + 1))], Raise e)
  /\ while_true n st (w :: rest)
     = ([Print (MsgAnalyzing (frame_count st + 1))], Raised e).
Proof.
  intros Hread Hkey Htrig Henc.
  assert (Hbody : loop_body n st w
                  = ([Print (MsgAnalyzing (frame_count st + 1))], Raise e)).
  { rewrite (loop_body_polled n st w f k Hread Hkey). cbv zeta.
    pose proof (key_branch_analyze n (frame_count st + 1) k) as Hb.
    apply andb_true_iff in Htrig as [Hm Hgt].
    destruct (key_branch _ _ _) as [b|e']; [|congruence].
    rewrite Hm in Hb. destruct b; try discriminate Hb.
    cbn [analyze_frame_of andb]. now rewrite Hgt, analysis_cases, Henc. }
  split; [exact Hbody|]. cbn [while_true]. now rewrite Hbody.
Qed.

Lemma encoder_exception_witness :
  loop_body 30 (Sample.at_ 4 10) (Sample.unencodable 13 32)
  = ([Print (MsgAnalyzing (4 + 1))], Raise (OtherException "cv2.error")).
Proof.
  exact (proj1 (encoder_exception_leaves_loop
                  30 (Sample.at_ 4 10) (Sample.unencodable 13 32)
                  Sample.raw_frame 32 (OtherException "cv2.error") []
                  eq_refl eq_refl eq_refl eq_refl)).
Defined.

(** *** The overlay renderer *)

Lemma drawn_fold_draw (ops : list draw_op) (f : frame) :
  drawn (fold_left draw ops f) = drawn f ++ ops.
Proof.
  revert f. induction ops as [|op ops IH]; intros f; cbn [fold_left].
  - now rewrite app_nil_r.
  - rewrite IH. cbn [draw drawn]. now rewrite <- app_assoc.
Qed.

Lemma draw_face_box_grows (f f' : frame) (face : FaceDetail) :
  draw_face_box f face = Ok f' ->
  (List.length (drawn f) < List.length (drawn f'))%nat.
Proof.
  unfold draw_face_box.
  destruct (getitem _ _) as [box|e]; [|discriminate].
  destruct (pixel (Left box) _) as [x|e]; [|discriminate].
  destruct (pixel (Top box) _) as [y|e]; [|discriminate].
  destruct (pixel (Width box) _) as [w|e]; [|discriminate].
  destruct (pixel (Height box) _) as [h|e]; [|discriminate].
  intros H. assert (Hf : f' = fold_left draw (face_overlay face x y w h) f)
    by congruence.
  rewrite Hf, drawn_fold_draw, length_app. unfold face_overlay.
  rewrite length_app. cbn [List.length]. lia.
Qed.

Lemma draw_face_boxes_grows (faces : list FaceDetail) (f f' : frame) :
  draw_face_boxes f faces = Ok f' ->
  (List.length (drawn f) + List.length faces <= List.length (drawn f'))%nat.
Proof.
  revert f. induction faces as [|face faces IH]; intros f; cbn [draw_face_boxes].
  - intros [= <-]. cbn [List.length]. lia.
  - destruct (draw_face_box f face) as [f1|e] eqn:H1; [|discriminate].
    intros H. apply IH in H. apply draw_face_box_grows in H1.
    cbn [List.length]. lia.
Qed.

(** C8: rendering an empty list of faces returns the frame as it was given,
    nothing drawn, and raises nothing; the empty list is the only one the
    renderer returns the frame unchanged for. *)
Theorem draw_face_boxes_empty (f : frame) :
  draw_face_boxes f [] = Ok f
  /\ forall faces, draw_face_boxes f faces = Ok f -> faces = [].
Proof.
  split; [reflexivity|].
  intros [|face faces] H; [reflexivity|].
  apply draw_face_boxes_grows in H. cbn [List.length] in H. lia.
Qed.

Lemma draw_face_boxes_empty_witness :
  draw_face_boxes Sample.raw_frame [] = Ok Sample.raw_frame.
Proof. exact (proj1 (draw_face_boxes_empty Sample.raw_frame)). Defined.

(** *** From relative coordinates to pixels *)

Lemma Qabs_make (a : Z) (d : positive) : Qabs (a # d) = (Z.abs a # d)%Q.
Proof. reflexivity. Qed.

Lemma to_int_truncated (p : float) (n : Z) : to_int p = Ok n -> truncated p n.
Proof.
  destruct p as [s|s| |s m e]; cbn [to_int]; try discriminate.
  - intros [= <-]. unfold truncated, to_Q, Qle, Qlt; cbn. lia.
  - intros [= <-]. unfold truncated.
    destruct e as [|e|k].
    + cbn [to_Q]. rewrite Z.shiftl_0_r, Z.pow_0_r, Z.mul_1_r.
      set (z := cond_Zopp s (Z.pos m)).
      unfold inject_Z, Qle, Qlt, Qplus, Qmult; cbn [Qabs Qnum Qden].
      nia.
    + cbn [to_Q]. rewrite Z.shiftl_mul_pow2 by lia.
      assert (Hz : cond_Zopp s (Z.pos m * 2 ^ Z.pos e)
                   = cond_Zopp s (Z.pos m) * 2 ^ Z.pos e)
        by (destruct s; cbn [cond_Zopp]; lia).
      rewrite Hz.
      set (z := cond_Zopp s (Z.pos m) * 2 ^ Z.pos e).
      unfold inject_Z, Qle, Qlt, Qplus, Qmult; cbn [Qabs Qnum Qden].
      nia.
    + cbn [to_Q]. change (Z.neg k) with (- Z.pos k).
      rewrite Z.shiftl_opp_r, Z.shiftr_div_pow2 by lia.
      assert (Hd : Z.pos (2 ^ k) = 2 ^ Z.pos k) by apply Pos2Z.inj_pow.
      assert (Hpos : 0 < 2 ^ Z.pos k) by (apply Z.pow_pos_nonneg; lia).
      set (d := 2 ^ Z.pos k) in *.
      assert (Hq : 0 <= Z.pos m / d) by (apply Z.div_pos; lia).
      assert (Hlo : d * (Z.pos m / d) <= Z.pos m)
        by (apply Z.mul_div_le; lia).
      assert (Hhi : Z.pos m < d * Z.succ (Z.pos m / d))
        by (apply Z.mul_succ_div_gt; lia).
      rewrite Qabs_make.
      unfold inject_Z, Qle, Qlt, Qplus, Qmult; cbn [Qnum Qden].
      rewrite Hd. destruct s; cbn [cond_Zopp]; nia.
Qed.

(** C9 (as stated) fails for the conversion to the nearest pixel: 0.9 of a
    width of 3 is 2.7, the renderer takes pixel 2, and 2 is further than one
    half from the product. *)
Lemma pixel_not_nearest :
  pixel (lit 9 10) 3 = Ok 2
  /\ ~ spec_nearest_pixel (mul (lit 9 10) (of_Z 3)) 2.
Proof.
  split; [reflexivity|].
  unfold spec_nearest_pixel. vm_compute. intros H. now apply H.
Qed.

(** C9 (amended): the box with left 0.1, top 0.2, width 0.3 and height 0.4
    is drawn on a 640x480 frame as the rectangle from (64,96) to (256,288);
    in general the rectangle goes from [(x, y)] to [(x + w, y + h)] where
    [x], [y], [w], [h] are the binary64 products [left * frame_width],
    [top * frame_height], [width * frame_width], [height * frame_height],
    each truncated toward zero (not rounded to the nearest integer). *)
Theorem face_box_truncated_to_pixels :
  (exists f',
     draw_face_boxes Sample.raw_frame [Sample.one_face] = Ok f'
     /\ hd_error (drawn f') = Some (Rectangle (64, 96) (256, 288) green 2))
  /\ (forall f face box x y w h,
        face_BoundingBox face = Some box ->
        pixel (Left box) (width f) = Ok x ->
        pixel (Top box) (height f) = Ok y ->
        pixel (Width box) (width f) = Ok w ->
        pixel (Height box) (height f) = Ok h ->
        exists f' texts,
          draw_face_box f face = Ok f'
          /\ drawn f'
             = drawn f ++ Rectangle (x, y) (x + w, y + h) green 2 :: texts)
  /\ (forall coordinate extent n,
        pixel coordinate extent = Ok n ->
        exists p, mul_int coordinate extent = Ok p /\ truncated p n).
Proof.
  split; [|split].
  - eexists. split; reflexivity.
  - intros f face box x y w h Hbox Hx Hy Hw Hh.
    unfold draw_face_box. rewrite Hbox. cbn [getitem].
    rewrite Hx, Hy, Hw, Hh. do 2 eexists. split; [reflexivity|].
    rewrite drawn_fold_draw. reflexivity.
  - intros c extent n. unfold pixel.
    destruct (mul_int c extent) as [p|e]; [|discriminate].
    intros Hn. exists p. split; [reflexivity|]. now apply to_int_truncated.
Qed.

Lemma face_box_truncated_witness :
  exists p, mul_int (lit 9 10) 3 = Ok p /\ truncated p 2.
Proof.
  exact (proj2 (proj2 face_box_truncated_to_pixels) (lit 9 10) 3 2 eq_refl).
Defined.

(** *** The label request *)

Lemma within_request_nil (mx mn : Z) : 0 <= mx -> within_request mx mn [].
Proof. intros H. split; [exact H|constructor]. Qed.

Lemma detect_labels_within (w : world) (b : bytes) (t : list event)
    (ls : list Label) :
  honors_request w ->
  detect_labels w b = (t, Ok ls) ->
  within_request MaxLabels MinConfidence ls
  /\ forall image mx mn,
       In (DetectLabelsRequest image mx mn) t ->
       mx = MaxLabels /\ mn = MinConfidence.
Proof.
  intros Hh. rewrite detect_labels_cases.
  destruct (rekognition_detect_labels w b MaxLabels MinConfidence)
    as [r|e] eqn:Hr.
  - intros [= <- <-]. split.
    + destruct (Labels r) as [ls|] eqn:Hl; cbn [get].
      * exact (Hh _ _ _ _ _ Hr Hl).
      * apply within_request_nil. unfold MaxLabels. lia.
    + intros image mx mn [[= _ <- <-]|[]]. now split.
  - destruct (is_ClientError e); [|discriminate].
    intros [= <- <-]. split.
    + apply within_request_nil. unfold MaxLabels. lia.
    + intros image mx mn [[= _ <- <-]|[[=]|[]]]. now split.
Qed.

Lemma detect_faces_bounded (w : world) (b : bytes) :
  Forall labels_bounded (fst (detect_faces w b)).
Proof.
  rewrite detect_faces_cases.
  destruct (rekognition_detect_faces w b ["ALL"%string]) as [r|e];
    [|destruct (is_ClientError e)]; cbn [fst]; repeat constructor.
Qed.

Lemma detect_labels_bounded (w : world) (b : bytes) :
  honors_request w ->
  Forall labels_bounded (fst (detect_labels w b))
  /\ forall ls, snd (detect_labels w b) = Ok ls -> within_request 10 70 ls.
Proof.
  intros Hh. split.
  - rewrite detect_labels_cases.
    destruct (rekognition_detect_labels w b MaxLabels MinConfidence) as [r|e];
      [|destruct (is_ClientError e)]; cbn [fst]; repeat constructor.
  - intros ls Hls.
    destruct (detect_labels w b) as [t r] eqn:Hd. cbn [snd] in Hls. subst r.
    exact (proj1 (detect_labels_within w b t ls Hh Hd)).
Qed.

Lemma analysis_bounded (w : world) (f : frame) (fc : Z) :
  honors_request w -> Forall labels_bounded (fst (analysis w f fc)).
Proof.
  intros Hh. rewrite analysis_cases.
  destruct (imencode w f) as [[flag buf]|e]; [|repeat constructor].
  pose proof (detect_faces_bounded w buf) as Hf.
  destruct (detect_labels_bounded w buf Hh) as [Hl Hls].
  destruct (detect_faces w buf) as [t1 [faces|e]]; cbn [fst] in *.
  - destruct (detect_labels w buf) as [t2 [labels|e]]; cbn [fst snd] in *.
    + constructor; [exact I|].
      rewrite !Forall_app. repeat split; try assumption.
      constructor; [|constructor]. cbn. now apply Hls.
    + constructor; [exact I|]. rewrite Forall_app. now split.
  - constructor; [exact I|assumption].
Qed.

Lemma loop_body_bounded (n : Z) (st : loop_state) (w : world) :
  honors_request w -> Forall labels_bounded (fst (loop_body n st w)).
Proof.
  intros Hh.
  destruct (cap_read w) as [[[|] f]|e] eqn:Hread;
    [| unfold loop_body; rewrite Hread; repeat constructor
     | unfold loop_body; rewrite Hread; repeat constructor].
  destruct (waitKey w) as [k|e] eqn:Hkey;
    [| unfold loop_body; rewrite Hread, bind_lift_Ok; cbn [negb];
       rewrite Hkey; repeat constructor].
  rewrite (loop_body_polled n st w f k Hread Hkey). cbv zeta.
  destruct (key_branch _ _ _) as [b|e]; [|constructor].
  destruct b; cbn [analyze_frame_of andb]; try (repeat constructor).
  destruct (gt_int _ _); [|repeat constructor].
  pose proof (analysis_bounded w f (frame_count st + 1) Hh) as Ha.
  destruct (analysis _ _ _) as [ta [f'|e]]; cbn [fst] in *; [|assumption].
  rewrite Forall_app. split; [assumption|repeat constructor].
Qed.

Lemma while_true_bounded (n : Z) (ws : list world) (st : loop_state) :
  Forall honors_request ws ->
  Forall labels_bounded (fst (while_true n st ws)).
Proof.
  revert st. induction ws as [|w ws IH]; intros st Hws; cbn [while_true].
  - constructor.
  - inversion Hws as [|w' ws' Hw Hrest]; subst.
    pose proof (loop_body_bounded n st w Hw) as Hb.
    destruct (loop_body n st w) as [t [[st'|st']|e]]; cbn [fst] in *;
      try assumption.
    specialize (IH st' Hrest).
    destruct (while_true n st' ws) as [t' x]. cbn [fst] in *.
    rewrite Forall_app. now split.
Qed.

Lemma run_video_analysis_bounded (s : session) (n : Z) :
  Forall honors_request (ticks s) ->
  Forall labels_bounded (fst (run_video_analysis s n)).
Proof.
  intros Hws. unfold run_video_analysis.
  destruct (isOpened s); cbn [negb]; [|repeat constructor].
  destruct (before_try s) as [[printed e]|].
  { cbn [fst]. apply Forall_forall. intros ev Hin.
    assert (Hs : In ev (startup n)).
    { rewrite <- (firstn_skipn printed (startup n)).
      apply in_or_app. now left. }
    unfold startup in Hs. cbn in Hs.
    destruct Hs as [<-|[<-|[<-|[<-|[]]]]]; exact I. }
  pose proof (while_true_bounded
                n (ticks s)
                {| frame_count := 0; last_analysis_time := start_time s |}
                Hws) as Hb.
  destruct (while_true _ _ _) as [t [st|st|e]]; cbn [fst] in *.
  - rewrite Forall_app. split; [repeat constructor|assumption].
  - rewrite !Forall_app. repeat split; try assumption; repeat constructor.
  - destruct (is_KeyboardInterrupt e); cbn [fst];
      rewrite !Forall_app; repeat split; try assumption; repeat constructor.
Qed.

Lemma selective_honors (now k : Z) : honors_request (Sample.selective now k).
Proof.
  intros image mx mn r ls. cbn [rekognition_detect_labels Sample.selective].
  destruct (mx <? 0) eqn:Hmx; [discriminate|].
  apply Z.ltb_ge in Hmx.
  intros [= <-]. cbn [Labels]. intros [= <-]. split.
  - rewrite length_firstn. lia.
  - apply Forall_forall. intros l Hl.
    assert (Hf : In l (filter (fun l => ge_int (Confidence l) mn)
                         [Sample.person; Sample.dog])).
    { rewrite <- (firstn_skipn (Z.to_nat mx)). apply in_or_app. now left. }
    apply filter_In in Hf. exact (proj2 Hf).
Qed.

Lemma analysis_branch_entered (n : Z) (st : loop_state) (w : world)
    (f : frame) (k : Z) :
  cap_read w = Ok (true, f) ->
  waitKey w = Ok k ->
  (manual_trigger k || cadence_fires n (frame_count st + 1))
  && gt_int (sub (time_time w) (last_analysis_time st)) 2 = true ->
  loop_body n st w
  = match analysis w f (frame_count st + 1) with
    | (t, Ok f') =>
        (t ++ [ImShow (caption f' (frame_count st + 1))],
         Ok (Next {| frame_count := frame_count st + 1;
                     last_analysis_time := time_time w |}))
    | (t, Raise e) => (t, Raise e)
    end.
Proof.
  intros Hread Hkey Htrig.
  rewrite (loop_body_polled n st w f k Hread Hkey). cbv zeta.
  pose proof (key_branch_analyze n (frame_count st + 1) k) as Hb.
  apply andb_true_iff in Htrig as [Hm Hgt].
  destruct (key_branch _ _ _) as [b|e]; [|congruence].
  rewrite Hm in Hb. destruct b; try discriminate Hb.
  cbn [analyze_frame_of andb]. now rewrite Hgt.
Qed.

(** C10: on every iteration that attempts an analysis (the frame encoded,
    the face call returned or absorbed), exactly one label request is sent,
    with the image of the iteration, [MaxLabels] 10 and [MinConfidence] 70,
    and the label list of the response to that request is the list that is
    printed; so, when at every iteration the service honors the parameters
    of a label request, every label request of the session asks for at most
    10 labels of confidence at least 70, and every label list printed by the
    session has at most 10 entries, each of confidence at least 70. *)
Theorem labels_within_request_bounds (s : session) (n : Z) :
  (forall st w f k flag buf,
     cap_read w = Ok (true, f) ->
     waitKey w = Ok k ->
     imencode w f = Ok (flag, buf) ->
     (manual_trigger k || cadence_fires n (frame_count st + 1))
     && gt_int (sub (time_time w) (last_analysis_time st)) 2 = true ->
     absorbed (rekognition_detect_faces w buf ["ALL"%string]) = true ->
     In (DetectLabelsRequest buf 10 70) (fst (loop_body n st w))
     /\ labels_requests (fst (loop_body n st w)) = [buf]
     /\ forall r,
          rekognition_detect_labels w buf 10 70 = Ok r ->
          exists faces,
            In (Print (MsgDetectionResults faces (get (Labels r) [])
                         (frame_count st + 1)))
               (fst (loop_body n st w)))
  /\ (Forall honors_request (ticks s) ->
      (forall image max_labels min_confidence,
         In (DetectLabelsRequest image max_labels min_confidence)
            (fst (run_video_analysis s n)) ->
         max_labels = 10 /\ min_confidence = 70)
      /\ (forall faces labels k,
            In (Print (MsgDetectionResults faces labels k))
               (fst (run_video_analysis s n)) ->
            Z.of_nat (List.length labels) <= 10
            /\ Forall (fun l => ge_int (Confidence l) 70 = true) labels)).
Proof.
  split.
  - intros st w f k flag buf Hread Hkey Henc Htrig Hf.
    rewrite (analysis_branch_entered n st w f k Hread Hkey Htrig).
    rewrite analysis_cases, Henc, detect_faces_cases, detect_labels_cases.
    change MaxLabels with 10. change MinConfidence with 70.
    destruct (rekognition_detect_faces w buf ["ALL"%string]) as [rf|ef];
      [|cbn in Hf; rewrite Hf];
      (destruct (rekognition_detect_labels w buf 10 70) as [rl|el];
       [|destruct (is_ClientError el)]);
      try (destruct (draw_face_boxes f _));
      (split; [cbn; tauto|split; [reflexivity|]]);
      intros r Hr; try discriminate Hr;
      injection Hr as <-; eexists; cbn; tauto.
  - intros Hws.
    pose proof (run_video_analysis_bounded s n Hws) as Hb.
    rewrite Forall_forall in Hb. split.
    + intros image mx mn Hin. exact (Hb _ Hin).
    + intros faces labels k Hin. exact (Hb _ Hin).
Qed.

Lemma labels_within_request_witness :
  Z.of_nat (List.length [Sample.person]) <= 10
  /\ Forall (fun l => ge_int (Confidence l) 70 = true) [Sample.person].
Proof.
  apply (proj2 (proj2 (labels_within_request_bounds
                         (Sample.session_of [Sample.selective 13 32]) 1)
                  (Forall_cons _ (selective_honors 13 32) (Forall_nil _)))
           [Sample.one_face] [Sample.person] 1).
  vm_compute. tauto.
Defined.

(** *** Iterations, in all their cases *)

Lemma loop_body_cases (n : Z) (st : loop_state) (w : world) :
  loop_body n st w =
  match cap_read w with
  | Raise e => ([], Raise e)
  | Ok (false, _) => ([Print MsgCouldNotReadFrame], Ok (Break st))
  | Ok (true, f) =>
      match waitKey w with
      | Raise e => ([], Raise e)
      | Ok k =>
          match key_branch (Z.land k 255) (frame_count st + 1) n with
          | Raise e => ([], Raise e)
          | Ok DoBreak =>
              ([], Ok (Break {| frame_count := frame_count st + 1;
                                last_analysis_time := last_analysis_time st |}))
          | Ok b =>
              if analyze_frame_of b
                 && gt_int (sub (time_time w) (last_analysis_time st)) 2
              then
                match analysis w f (frame_count st + 1) with
                | (t, Ok f') =>
                    (t ++ [ImShow (caption f' (frame_count st + 1))],
                     Ok (Next {| frame_count := frame_count st + 1;
                                 last_analysis_time := time_time w |}))
                | (t, Raise e) => (t, Raise e)
                end
              else
                ([ImShow (caption f (frame_count st + 1))],
                 Ok (Next {| frame_count := frame_count st + 1;
                             last_analysis_time := last_analysis_time st |}))
          end
      end
  end.
Proof.
  destruct (cap_read w) as [[[|] f]|e] eqn:Hread;
    [| unfold loop_body; rewrite Hread; reflexivity
     | unfold loop_body; rewrite Hread; reflexivity].
  destruct (waitKey w) as [k|e] eqn:Hkey;
    [| unfold loop_body; rewrite Hread, bind_lift_Ok; cbn [negb];
       rewrite Hkey; reflexivity].
  exact (loop_body_polled n st w f k Hread Hkey).
Qed.

Lemma analysis_events_only (w : world) (f : frame) (fc : Z) :
  forallb is_analysis_event (fst (analysis w f fc)) = true.
Proof.
  rewrite analysis_cases.
  destruct (imencode w f) as [[flag buf]|e]; [|reflexivity].
  rewrite detect_faces_cases, detect_labels_cases.
  destruct (rekognition_detect_faces w buf ["ALL"%string]) as [rf|ef];
    [|destruct (is_ClientError ef); [|reflexivity]];
    (destruct (rekognition_detect_labels w buf MaxLabels MinConfidence)
       as [rl|el];
     [|destruct (is_ClientError el)]); reflexivity.
Qed.

Lemma analysis_events_not_shown (t : list event) :
  forallb is_analysis_event t = true ->
  shown t = [] /\ read_failed t = false
  /\ forallb is_loop_event t = true.
Proof.
  induction t as [|ev t IH]; [now repeat split|].
  cbn [forallb]. intros H. apply andb_true_iff in H as [Hev Ht].
  destruct (IH Ht) as (Hs & Hr & Hl).
  destruct ev as [[]| | | | |]; try discriminate Hev;
    cbn [shown read_failed existsb is_read_failure orb forallb is_loop_event
         is_analysis_event andb];
    repeat split; assumption.
Qed.

Lemma read_failed_app (t1 t2 : list event) :
  read_failed (t1 ++ t2) = read_failed t1 || read_failed t2.
Proof. apply existsb_app. Qed.

(** *** What the renderer keeps *)

Lemma fold_draw_canvas (ops : list draw_op) (f : frame) :
  height (fold_left draw ops f) = height f
  /\ width (fold_left draw ops f) = width f
  /\ pixels (fold_left draw ops f) = pixels f.
Proof.
  revert f. induction ops as [|op ops IH]; intros f; cbn [fold_left].
  - repeat split.
  - destruct (IH (draw f op)) as (Hh & Hw & Hp).
    rewrite Hh, Hw, Hp. repeat split.
Qed.

Lemma draw_face_box_appends (f f' : frame) (face : FaceDetail) :
  draw_face_box f face = Ok f' ->
  height f' = height f /\ width f' = width f /\ pixels f' = pixels f
  /\ exists ops, drawn f' = drawn f ++ ops
                 /\ List.length ops
                    = (2 + (if has_age_range face then 1 else 0))%nat.
Proof.
  unfold draw_face_box.
  destruct (getitem _ _) as [box|e]; [|discriminate].
  destruct (pixel (Left box) _) as [x|e]; [|discriminate].
  destruct (pixel (Top box) _) as [y|e]; [|discriminate].
  destruct (pixel (Width box) _) as [w|e]; [|discriminate].
  destruct (pixel (Height box) _) as [h|e]; [|discriminate].
  intros H. assert (Hf : f' = fold_left draw (face_overlay face x y w h) f)
    by congruence.
  destruct (fold_draw_canvas (face_overlay face x y w h) f) as (Hh & Hw & Hp).
  rewrite Hf, Hh, Hw, Hp, drawn_fold_draw. repeat split.
  exists (face_overlay face x y w h). split; [reflexivity|].
  unfold face_overlay, has_age_range. rewrite length_app.
  destruct (face_AgeRange face); reflexivity.
Qed.

(** X1: the renderer only draws over the frame: its size and its captured
    pixels are kept, what was drawn before is kept, and each face adds a
    rectangle and a confidence text, plus an age text when the face has an
    age range. *)
Theorem draw_face_boxes_only_appends (faces : list FaceDetail)
    (f f' : frame) :
  draw_face_boxes f faces = Ok f' ->
  height f' = height f /\ width f' = width f /\ pixels f' = pixels f
  /\ exists ops, drawn f' = drawn f ++ ops
                 /\ List.length ops
                    = (2 * List.length faces
                       + List.length (filter has_age_range faces))%nat.
Proof.
  revert f. induction faces as [|face faces IH]; intros f;
    cbn [draw_face_boxes].
  - intros [= <-]. repeat split. exists []. now rewrite app_nil_r.
  - destruct (draw_face_box f face) as [f1|e] eqn:H1; [|discriminate].
    intros H. apply IH in H as (Hh & Hw & Hp & ops & Hd & Hlen).
    apply draw_face_box_appends in H1
      as (Hh1 & Hw1 & Hp1 & ops1 & Hd1 & Hlen1).
    rewrite Hh, Hw, Hp, Hh1, Hw1, Hp1. repeat split.
    exists (ops1 ++ ops). split.
    + now rewrite Hd, Hd1, app_assoc.
    + rewrite length_app, Hlen, Hlen1. cbn [filter List.length].
      destruct (has_age_range face); cbn [List.length]; lia.
Qed.

Lemma draw_face_boxes_only_appends_witness :
  exists ops,
    drawn (fold_left draw (face_overlay Sample.one_face 64 96 192 192)
             Sample.raw_frame)
    = drawn Sample.raw_frame ++ ops
    /\ List.length ops = 3%nat.
Proof.
  exact (proj2 (proj2 (proj2
           (draw_face_boxes_only_appends
              [Sample.one_face] Sample.raw_frame
              (fold_left draw (face_overlay Sample.one_face 64 96 192 192)
                 Sample.raw_frame)
              eq_refl)))).
Defined.

(** *** What an iteration shows and counts *)

Lemma analysis_canvas (w : world) (f f' : frame) (fc : Z) :
  snd (analysis w f fc) = Ok f' ->
  height f' = height f /\ width f' = width f /\ pixels f' = pixels f
  /\ exists ops, drawn f' = drawn f ++ ops.
Proof.
  rewrite analysis_cases.
  destruct (imencode w f) as [[flag buf]|e]; [|discriminate].
  destruct (detect_faces w buf) as [t1 [faces|e]]; [|discriminate].
  destruct (detect_labels w buf) as [t2 [labels|e]]; [|discriminate].
  cbn [snd]. intros H.
  apply draw_face_boxes_only_appends in H as (Hh & Hw & Hp & ops & Hd & _).
  repeat split; try assumption. now exists ops.
Qed.

(** X2: an iteration puts a frame on screen exactly when the loop goes on to
    the next iteration, and then exactly one: the frame just read, same size
    and same captured pixels, with whatever the renderer drew and then the
    two captions, the second carrying the new frame count. *)
Theorem iteration_shows_captioned_frame (n : Z) (st : loop_state)
    (w : world) :
  match snd (loop_body n st w) with
  | Ok (Next st') =>
      frame_count st' = frame_count st + 1
      /\ exists f g,
           cap_read w = Ok (true, f)
           /\ shown (fst (loop_body n st w)) = [caption g (frame_count st')]
           /\ height g = height f /\ width g = width f
           /\ pixels g = pixels f
           /\ exists ops, drawn g = drawn f ++ ops
  | _ => shown (fst (loop_body n st w)) = []
  end.
Proof.
  assert (Hnil : forall l : list draw_op, exists ops, l = l ++ ops)
    by (intros l; exists []; now rewrite app_nil_r).
  rewrite loop_body_cases.
  destruct (cap_read w) as [[[|] f]|e]; [| reflexivity | reflexivity].
  destruct (waitKey w) as [k|e]; [|reflexivity].
  destruct (key_branch _ _ _) as [b|e]; [|reflexivity].
  destruct b; cbn [analyze_frame_of andb];
    [| reflexivity
     | cbn [snd fst shown frame_count]; split; [reflexivity|];
       exists f, f; repeat split; apply Hnil].
  destruct (gt_int _ _);
    [| cbn [snd fst shown frame_count]; split; [reflexivity|];
       exists f, f; repeat split; apply Hnil].
  pose proof (analysis_events_only w f (frame_count st + 1)) as Hev.
  apply analysis_events_not_shown in Hev as (Hs & _ & _).
  pose proof (fun f' => analysis_canvas w f f' (frame_count st + 1)) as Hc.
  destruct (analysis w f (frame_count st + 1)) as [t [f'|e]];
    cbn [fst snd] in *; [|exact Hs].
  split; [reflexivity|]. exists f, f'.
  destruct (Hc f' eq_refl) as (Hh & Hw & Hp & ops & Hd).
  rewrite shown_app, Hs. repeat split; try assumption. now exists ops.
Qed.

Lemma iteration_counts (n : Z) (st : loop_state) (w : world) :
  match snd (loop_body n st w) with
  | Ok (Next st') =>
      frame_count st' = frame_count st + 1
      /\ List.length (shown (fst (loop_body n st w))) = 1%nat
      /\ read_failed (fst (loop_body n st w)) = false
  | Ok (Break st') =>
      shown (fst (loop_body n st w)) = []
      /\ frame_count st'
         = frame_count st
           + (if read_failed (fst (loop_body n st w)) then 0 else 1)
  | Raise _ => shown (fst (loop_body n st w)) = []
  end.
Proof.
  rewrite loop_body_cases.
  destruct (cap_read w) as [[[|] f]|e];
    [| cbn; split; [reflexivity|lia] | reflexivity].
  destruct (waitKey w) as [k|e]; [|reflexivity].
  destruct (key_branch _ _ _) as [b|e]; [|reflexivity].
  destruct b; cbn [analyze_frame_of andb];
    [| cbn; split; reflexivity | cbn; repeat split].
  destruct (gt_int _ _); [|cbn; repeat split].
  pose proof (analysis_events_only w f (frame_count st + 1)) as Hev.
  apply analysis_events_not_shown in Hev as (Hs & Hr & _).
  destruct (analysis w f (frame_count st + 1)) as [t [f'|e]];
    cbn [fst snd] in *; [|exact Hs].
  rewrite shown_app, read_failed_app, Hs, Hr. repeat split.
Qed.

(** X3: the frame counter counts the frames read.  While the loop runs,
    [frame_count] has grown by the number of iterations, each of which showed
    one frame; when the loop is left by [break], it has grown by the number
    of frames shown if the camera gave no frame, and by one more if [q] was
    pressed (that frame is counted and never shown); when an exception
    leaves the loop, fewer frames were shown than there were iterations. *)
Theorem frame_count_counts_frames_read (n : Z) (ws : list world)
    (st : loop_state) :
  match snd (while_true n st ws) with
  | Exhausted st' =>
      frame_count st' = frame_count st + Z.of_nat (List.length ws)
      /\ List.length (shown (fst (while_true n st ws))) = List.length ws
      /\ read_failed (fst (while_true n st ws)) = false
  | Broke st' =>
      frame_count st'
      = frame_count st
        + Z.of_nat (List.length (shown (fst (while_true n st ws))))
        + (if read_failed (fst (while_true n st ws)) then 0 else 1)
  | Raised _ =>
      (List.length (shown (fst (while_true n st ws))) < List.length ws)%nat
  end.
Proof.
  revert st. induction ws as [|w ws IH]; intros st; cbn [while_true].
  - cbn. repeat split. lia.
  - pose proof (iteration_counts n st w) as Hit.
    destruct (loop_body n st w) as [t [[st1|st1]|e]]; cbn [fst snd] in *.
    + destruct Hit as (Hfc & Hlen & Hrf). specialize (IH st1).
      destruct (while_true n st1 ws) as [t' [st'|st'|e]]; cbn [fst snd] in *;
        rewrite shown_app, length_app, ?read_failed_app, ?Hrf, Hlen;
        cbn [orb List.length].
      * destruct IH as (IH1 & IH2 & IH3). repeat split; try assumption; lia.
      * lia.
      * lia.
    + destruct Hit as [Hs Hfc]. rewrite Hs. cbn [List.length]. lia.
    + rewrite Hit. cbn [List.length]. lia.
Qed.

(** *** The rate limit over several iterations *)

Lemma remote_analysis_performed_app (t1 t2 : list event) :
  remote_analysis_performed (t1 ++ t2)
  = remote_analysis_performed t1 || remote_analysis_performed t2.
Proof. apply existsb_app. Qed.

Lemma iteration_within_interval (n : Z) (st : loop_state) (w : world) :
  gt_int (sub (time_time w) (last_analysis_time st)) 2 = false ->
  remote_analysis_performed (fst (loop_body n st w)) = false
  /\ forall st', snd (loop_body n st w) = Ok (Next st') ->
                 last_analysis_time st' = last_analysis_time st.
Proof.
  intros Hgt. rewrite loop_body_cases.
  destruct (cap_read w) as [[[|] f]|e];
    [| split; [reflexivity|discriminate] | split; [reflexivity|discriminate]].
  destruct (waitKey w) as [k|e]; [|split; [reflexivity|discriminate]].
  destruct (key_branch _ _ _) as [b|e]; [|split; [reflexivity|discriminate]].
  rewrite Hgt, andb_false_r.
  destruct b; (split; [reflexivity|]); cbn [snd];
    try discriminate; now intros st' [= <-].
Qed.

Lemma iteration_after_analysis (n : Z) (st st' : loop_state) (w : world) :
  snd (loop_body n st w) = Ok (Next st') ->
  analysis_attempted (fst (loop_body n st w)) = true ->
  last_analysis_time st' = time_time w.
Proof.
  rewrite loop_body_cases.
  destruct (cap_read w) as [[[|] f]|e]; try discriminate.
  destruct (waitKey w) as [k|e]; [|discriminate].
  destruct (key_branch _ _ _) as [b|e]; [|discriminate].
  destruct b; cbn [analyze_frame_of andb]; try discriminate.
  destruct (gt_int _ _); [|discriminate].
  destruct (analysis _ _ _) as [t [f'|e]]; [|discriminate].
  cbn [snd]. now intros [= <-].
Qed.

Lemma loop_within_interval (n : Z) (ws : list world) (st : loop_state) :
  Forall (fun w => gt_int (sub (time_time w) (last_analysis_time st)) 2
                   = false) ws ->
  remote_analysis_performed (fst (while_true n st ws)) = false.
Proof.
  revert st. induction ws as [|w ws IH]; intros st Hws; cbn [while_true].
  - reflexivity.
  - inversion Hws as [|w' ws' Hw Hrest]; subst.
    destruct (iteration_within_interval n st w Hw) as [Hno Hlast].
    destruct (loop_body n st w) as [t [[st1|st1]|e]]; cbn [fst snd] in *;
      try exact Hno.
    specialize (Hlast st1 eq_refl). specialize (IH st1).
    rewrite Hlast in IH. specialize (IH Hrest).
    destruct (while_true n st1 ws) as [t' x]. cbn [fst] in *.
    now rewrite remote_analysis_performed_app, Hno, IH.
Qed.

(** X4: a session makes no call to the remote service as long as the clock
    has not passed 2 seconds after the time read when the session started,
    whatever keys are pressed and whatever the cadence. *)
Theorem no_remote_call_at_session_start (s : session) (n : Z) :
  Forall (fun w => gt_int (sub (time_time w) (start_time s)) 2 = false)
         (ticks s) ->
  remote_analysis_performed (fst (run_video_analysis s n)) = false.
Proof.
  intros Hws. unfold run_video_analysis.
  destruct (isOpened s); cbn [negb]; [|reflexivity].
  destruct (before_try s) as [[printed e]|];
    [destruct printed as [|[|[|[|[|?]]]]]; reflexivity|].
  pose proof (loop_within_interval
                n (ticks s)
                {| frame_count := 0; last_analysis_time := start_time s |}
                Hws) as Hno.
  destruct (while_true _ _ _) as [t [st|st|e]]; cbn [fst] in *.
  - now rewrite remote_analysis_performed_app, Hno.
  - now rewrite !remote_analysis_performed_app, Hno.
  - destruct (is_KeyboardInterrupt e); cbn [fst];
      now rewrite !remote_analysis_performed_app, Hno.
Qed.

Lemma no_remote_call_at_session_start_witness :
  remote_analysis_performed
    (fst (run_video_analysis
            (Sample.session_of [Sample.healthy 1 32; Sample.healthy 2 32])
            1)) = false.
Proof.
  apply (no_remote_call_at_session_start
           (Sample.session_of [Sample.healthy 1 32; Sample.healthy 2 32]) 1).
  repeat constructor.
Defined.

(** X5: after an iteration that ran an analysis, no call to the remote
    service is made during the following iterations as long as the clock
    has not passed 2 seconds after the time read in that iteration. *)
Theorem no_remote_call_after_analysis (n : Z) (st st1 : loop_state)
    (w : world) (ws : list world) :
  snd (loop_body n st w) = Ok (Next st1) ->
  analysis_attempted (fst (loop_body n st w)) = true ->
  Forall (fun w' => gt_int (sub (time_time w') (time_time w)) 2 = false) ws ->
  remote_analysis_performed (fst (while_true n st1 ws)) = false.
Proof.
  intros Hnext Hatt Hws.
  pose proof (iteration_after_analysis n st st1 w Hnext Hatt) as Hlast.
  apply loop_within_interval. now rewrite Hlast.
Qed.

Lemma no_remote_call_after_analysis_witness :
  remote_analysis_performed
    (fst (while_true 30 (Sample.at_ 5 13)
            [Sample.healthy 14 32; Sample.healthy 15 32])) = false.
Proof.
  apply (no_remote_call_after_analysis
           30 (Sample.at_ 4 10) (Sample.at_ 5 13) (Sample.healthy 13 32)
           [Sample.healthy 14 32; Sample.healthy 15 32]);
    [reflexivity | reflexivity | repeat constructor].
Defined.

(** *** One analysis per iteration *)

(** X6: an iteration sends at most one face request and at most one label
    request, whether the space bar, the cadence or both asked for the
    analysis; a label request is only sent after a face request, with the
    same image. *)
Theorem at_most_one_analysis_per_iteration (n : Z) (st : loop_state)
    (w : world) :
  (faces_requests (fst (loop_body n st w)) = []
   /\ labels_requests (fst (loop_body n st w)) = [])
  \/ exists image,
       faces_requests (fst (loop_body n st w)) = [image]
       /\ (labels_requests (fst (loop_body n st w)) = []
           \/ labels_requests (fst (loop_body n st w)) = [image]).
Proof.
  rewrite loop_body_cases.
  destruct (cap_read w) as [[[|] f]|e]; try (left; split; reflexivity).
  destruct (waitKey w) as [k|e]; [|left; split; reflexivity].
  destruct (key_branch _ _ _) as [b|e]; [|left; split; reflexivity].
  destruct b; cbn [analyze_frame_of andb]; try (left; split; reflexivity).
  destruct (gt_int _ _); [|left; split; reflexivity].
  rewrite analysis_cases.
  destruct (imencode w f) as [[flag buf]|e]; [|left; split; reflexivity].
  rewrite detect_faces_cases, detect_labels_cases.
  right. exists buf.
  destruct (rekognition_detect_faces w buf ["ALL"%string]) as [rf|ef];
    [|destruct (is_ClientError ef); [|split; [reflexivity|left; reflexivity]]];
    (destruct (rekognition_detect_labels w buf MaxLabels MinConfidence)
       as [rl|el];
     [|destruct (is_ClientError el)]);
    try (destruct (draw_face_boxes f _));
    (split; [reflexivity|right; reflexivity]).
Qed.

(** *** What is reported is what is drawn *)

(** X7: when an iteration ran an analysis to its end, the last two events
    of the iteration are the printed results and the shown frame; the faces
    of the printed results are the faces the renderer drew on that frame, and
    both carry the new frame count. *)
Theorem reported_faces_are_drawn_faces (n : Z) (st st' : loop_state)
    (w : world) :
  snd (loop_body n st w) = Ok (Next st') ->
  analysis_attempted (fst (loop_body n st w)) = true ->
  exists f faces labels f' t,
    cap_read w = Ok (true, f)
    /\ draw_face_boxes f faces = Ok f'
    /\ fst (loop_body n st w)
       = t ++ [Print (MsgDetectionResults faces labels (frame_count st'));
               ImShow (caption f' (frame_count st'))].
Proof.
  rewrite loop_body_cases.
  destruct (cap_read w) as [[[|] f]|e]; try discriminate.
  destruct (waitKey w) as [k|e]; [|discriminate].
  destruct (key_branch _ _ _) as [b|e]; [|discriminate].
  destruct b; cbn [analyze_frame_of andb]; try discriminate.
  destruct (gt_int _ _); [|discriminate].
  rewrite analysis_cases.
  destruct (imencode w f) as [[flag buf]|e]; [|discriminate].
  destruct (detect_faces w buf) as [t1 [faces|e]]; [|discriminate].
  destruct (detect_labels w buf) as [t2 [labels|e]]; [|discriminate].
  destruct (draw_face_boxes f faces) as [f'|e] eqn:Hdraw; [|discriminate].
  cbn [snd fst]. intros [= <-] _. cbn [frame_count].
  exists f, faces, labels, f', (Print (MsgAnalyzing (frame_count st + 1))
                                  :: t1 ++ t2).
  repeat split; [exact Hdraw|].
  cbn [app]. now rewrite <- !app_assoc.
Qed.

Lemma reported_faces_are_drawn_faces_witness :
  exists f faces labels f' t,
    cap_read (Sample.healthy 13 32) = Ok (true, f)
    /\ draw_face_boxes f faces = Ok f'
    /\ fst (loop_body 30 (Sample.at_ 4 10) (Sample.healthy 13 32))
       = t ++ [Print (MsgDetectionResults faces labels
                        (frame_count (Sample.at_ 5 13)));
               ImShow (caption f' (frame_count (Sample.at_ 5 13)))].
Proof.
  exact (reported_faces_are_drawn_faces
           30 (Sample.at_ 4 10) (Sample.at_ 5 13) (Sample.healthy 13 32)
           eq_refl eq_refl).
Defined.

(** *** Errors of the renderer and of the service calls *)

(** X8: a face without a ['BoundingBox'] makes the renderer raise: no list
    of faces that contains one is drawn to the end. *)
Theorem draw_face_boxes_needs_bounding_boxes (faces : list FaceDetail)
    (f : frame) :
  (exists face, In face faces /\ face_BoundingBox face = None) ->
  exists e, draw_face_boxes f faces = Raise e.
Proof.
  intros (face & Hin & Hbox). revert f.
  induction faces as [|face0 faces IH]; intros f; [contradiction|].
  cbn [draw_face_boxes].
  destruct (draw_face_box f face0) as [f1|e] eqn:H1; [|now exists e].
  destruct Hin as [->|Hin]; [|now apply IH].
  unfold draw_face_box in H1. rewrite Hbox in H1. discriminate H1.
Qed.

Lemma draw_face_boxes_needs_bounding_boxes_witness :
  exists e,
    draw_face_boxes Sample.raw_frame
      [Sample.one_face; Edge.boxless]
    = Raise e.
Proof.
  apply (draw_face_boxes_needs_bounding_boxes
           [Sample.one_face; Edge.boxless]
           Sample.raw_frame).
  eexists. split; [right; left; reflexivity|reflexivity].
Defined.

(** X9: [detect_faces] and [detect_labels] never raise a [ClientError]: an
    exception that leaves either of them is the one the service call raised,
    and it is of another class; and each sends its request first. *)
Theorem detect_calls_never_raise_ClientError (w : world) (image : bytes) :
  (forall e, snd (detect_faces w image) = Raise e ->
             rekognition_detect_faces w image ["ALL"%string] = Raise e
             /\ is_ClientError e = false)
  /\ (forall e, snd (detect_labels w image) = Raise e ->
                rekognition_detect_labels w image 10 70 = Raise e
                /\ is_ClientError e = false)
  /\ hd_error (fst (detect_faces w image))
     = Some (DetectFacesRequest image ["ALL"%string])
  /\ hd_error (fst (detect_labels w image))
     = Some (DetectLabelsRequest image 10 70).
Proof.
  rewrite detect_faces_cases, detect_labels_cases.
  change MaxLabels with 10. change MinConfidence with 70.
  destruct (rekognition_detect_faces w image ["ALL"%string]) as [rf|ef];
    [|destruct (is_ClientError ef) eqn:Hf];
    (destruct (rekognition_detect_labels w image 10 70) as [rl|el];
     [|destruct (is_ClientError el) eqn:Hl]);
    cbn [fst snd hd_error]; repeat split;
    try discriminate; try congruence.
  all: intros e [= <-]; now split.
Qed.

Lemma detect_calls_never_raise_ClientError_witness :
  rekognition_detect_faces (Sample.offline 13 32) Sample.jpeg ["ALL"%string]
  = Raise (OtherException "EndpointConnectionError")
  /\ is_ClientError (OtherException "EndpointConnectionError") = false.
Proof.
  exact (proj1 (detect_calls_never_raise_ClientError
                  (Sample.offline 13 32) Sample.jpeg)
           (OtherException "EndpointConnectionError") eq_refl).
Defined.

(** *** Resources are given back once, at the end *)





(** A Ctrl-C between the opening of the camera and [try:] leaves the
    session, and [main], with the camera still held. *)
Example interrupted_at_start_releases_nothing :
  run_video_analysis Edge.interrupted_at_start 60
  = ([Print MsgWebcamInitialized; Print MsgStarting],
     Propagated KeyboardInterrupt)
  /\ snd (main (Ok tt) Edge.interrupted_at_start)
     = Propagated KeyboardInterrupt.
Proof. split; reflexivity. Qed.

(** *** The keyboard *)

(** X11: when [q] is pressed on an iteration where the cadence does not
    fire, the loop is left at once: nothing is printed, requested or shown,
    and the frame just read is counted.  With a cadence of 0 the same key
    raises [ZeroDivisionError] instead. *)
Theorem quit_leaves_loop_off_cadence (n : Z) (st : loop_state) (w : world)
    (f : frame) (k : Z) :
  cap_read w = Ok (true, f) ->
  waitKey w = Ok k ->
  quit_signal k = true ->
  cadence_fires n (frame_count st + 1) = false ->
  loop_body n st w
  = if n =? 0 then ([], Raise ZeroDivisionError)
    else ([], Ok (Break {| frame_count := frame_count st + 1;
                           last_analysis_time := last_analysis_time st |})).
Proof.
  intros Hread Hkey Hq Hcad. rewrite loop_body_cases, Hread, Hkey.
  unfold quit_signal in Hq. unfold cadence_fires in Hcad.
  unfold key_branch, mod_.
  apply Z.eqb_eq in Hq. rewrite Hq. cbn [Z.eqb ord_q ord_space Pos.eqb].
  destruct (n =? 0); [reflexivity|]. cbn [negb andb] in Hcad.
  rewrite Hcad. reflexivity.
Qed.

Lemma quit_leaves_loop_off_cadence_witness :
  loop_body 30 (Sample.at_ 6 10) (Sample.healthy 11 113)
  = ([], Ok (Break {| frame_count := 6 + 1;
                      last_analysis_time := of_Z 10 |})).
Proof.
  exact (quit_leaves_loop_off_cadence
           30 (Sample.at_ 6 10) (Sample.healthy 11 113) Sample.raw_frame 113
           eq_refl eq_refl eq_refl eq_refl).
Defined.

(** X12: only the low 8 bits of the key code count in an iteration: two
    worlds that differ only by a multiple of 256 in the code that
    [cv2.waitKey] returns give the same iteration, trace and result. *)
Theorem key_code_masked_to_a_byte (n : Z) (st : loop_state) (w : world)
    (k j : Z) :
  loop_body n st (Edge.with_key w (k + 256 * j))
  = loop_body n st (Edge.with_key w k).
Proof.
  assert (Hm : Z.land (k + 256 * j) 255 = Z.land k 255).
  { change 255 with (Z.ones 8). rewrite !Z.land_ones by lia.
    change 256 with (2 ^ 8). rewrite (Z.mul_comm (2 ^ 8) j).
    now rewrite Z.mod_add by (apply Z.pow_nonzero; lia). }
  assert (Ha : forall f fc,
             analysis (Edge.with_key w (k + 256 * j)) f fc
             = analysis (Edge.with_key w k) f fc) by reflexivity.
  rewrite (loop_body_cases n st (Edge.with_key w (k + 256 * j))).
  rewrite (loop_body_cases n st (Edge.with_key w k)).
  cbn [Edge.with_key cap_read waitKey time_time].
  destruct (cap_read w) as [[[|] f]|e]; try reflexivity.
  now rewrite Hm, Ha.
Qed.

(** *** The entry point *)



(** *** The order of floats *)

Lemma ltb_irrefl (a : float) : ltb a a = false.
Proof.
  unfold ltb, SFltb, SFcompare.
  destruct a as [[]|[]| |[] m e]; try reflexivity;
    rewrite Z.compare_refl;
    change (Pos.compare_cont Eq m m) with (Pos.compare m m);
    now rewrite Pos.compare_refl.
Qed.

Lemma ltb_trans (a b c : float) :
  ltb a b = true -> ltb b c = true -> ltb a c = true.
Proof.
  unfold ltb, SFltb, SFcompare.
  destruct a as [[]|[]| |[] m1 e1]; destruct b as [[]|[]| |[] m2 e2];
    try discriminate; destruct c as [[]|[]| |[] m3 e3];
    try discriminate; try reflexivity;
    change (Pos.compare_cont Eq m1 m2) with (Pos.compare m1 m2);
    change (Pos.compare_cont Eq m2 m3) with (Pos.compare m2 m3);
    change (Pos.compare_cont Eq m1 m3) with (Pos.compare m1 m3);
    destruct (Z.compare_spec e1 e2); try discriminate;
    destruct (Z.compare_spec e2 e3); try discriminate;
    destruct (Z.compare_spec e1 e3); try lia; try reflexivity;
    destruct (Pos.compare_spec m1 m2); try discriminate;
    destruct (Pos.compare_spec m2 m3); try discriminate;
    destruct (Pos.compare_spec m1 m3); try lia; try reflexivity.
Qed.

(** *** The printed report *)

Import Report.

Lemma max_from_chain {A} (key : A -> float) (rest : list A) (best : A) :
  max_from key best rest = best
  \/ ltb (key best) (key (max_from key best rest)) = true.
Proof.
  revert best. induction rest as [|x rest IH]; intros best; cbn [max_from].
  - now left.
  - destruct (ltb (key best) (key x)) eqn:Hx.
    + right. destruct (IH x) as [->|Hlt]; [exact Hx|].
      exact (ltb_trans _ _ _ Hx Hlt).
    + apply IH.
Qed.

Lemma max_from_in {A} (key : A -> float) (rest : list A) (best : A) :
  In (max_from key best rest) (best :: rest).
Proof.
  revert best. induction rest as [|x rest IH]; intros best; cbn [max_from].
  - now left.
  - destruct (ltb (key best) (key x)).
    + right. apply IH.
    + destruct (IH best) as [H|H]; [now left|right; now right].
Qed.

Lemma ltb_asym (a b : float) : ltb a b = true -> ltb b a = false.
Proof.
  intros Hab. destruct (ltb b a) eqn:Hba; [|reflexivity].
  pose proof (ltb_trans _ _ _ Hab Hba) as H.
  now rewrite ltb_irrefl in H.
Qed.

Lemma max_from_greatest {A} (key : A -> float) (rest : list A) (best y : A) :
  In y (best :: rest) ->
  ltb (key (max_from key best rest)) (key y) = false.
Proof.
  revert best. induction rest as [|x rest IH]; intros best Hin.
  - destruct Hin as [<-|[]]. apply ltb_irrefl.
  - cbn [max_from]. destruct (ltb (key best) (key x)) eqn:Hx.
    + destruct Hin as [<-|Hin]; [|now apply IH].
      destruct (max_from_chain key rest x) as [->|Hlt].
      * now apply ltb_asym.
      * apply ltb_asym. exact (ltb_trans _ _ _ Hx Hlt).
    + destruct Hin as [<-|[<-|Hin]].
      * apply IH. now left.
      * destruct (max_from_chain key rest best) as [->|Hlt]; [exact Hx|].
        destruct (ltb (key (max_from key best rest)) (key x)) eqn:Hy;
          [|reflexivity].
        pose proof (ltb_trans _ _ _ Hlt Hy) as H. congruence.
      * apply IH. now right.
Qed.

Lemma face_lines_ok (i : nat) (face : FaceAttributes) :
  snd (face_lines i face) = Ok tt.
Proof.
  unfold face_lines. destruct (get (attr_Emotions face) []); reflexivity.
Qed.

Lemma faces_lines_ok (faces : list FaceAttributes) (i : nat) :
  snd (faces_lines i faces) = Ok tt.
Proof.
  revert i. induction faces as [|face faces IH]; intros i; cbn [faces_lines].
  - reflexivity.
  - pose proof (face_lines_ok i face) as Hf.
    destruct (face_lines i face) as [l [[]|e]]; [|discriminate].
    specialize (IH (S i)). destruct (faces_lines (S i) faces) as [l' r].
    exact IH.
Qed.

Lemma printed_labels_app (l1 l2 : list line) :
  printed_labels (l1 ++ l2) = printed_labels l1 ++ printed_labels l2.
Proof. apply flat_map_app. Qed.

Lemma printed_face_numbers_app (l1 l2 : list line) :
  printed_face_numbers (l1 ++ l2)
  = printed_face_numbers l1 ++ printed_face_numbers l2.
Proof. apply flat_map_app. Qed.

Lemma face_lines_shape (i : nat) (face : FaceAttributes) :
  printed_labels (fst (face_lines i face)) = []
  /\ printed_face_numbers (fst (face_lines i face)) = [i]
  /\ forall k, ~ In (LineLabelsDetected k) (fst (face_lines i face)).
Proof.
  unfold face_lines, face_head_lines.
  destruct (get (attr_Emotions face) []) as [|e es]; cbn [max_ fst];
    destruct (face_AgeRange (attr_face face));
    (destruct (attr_Gender face) as [g|]; [destruct (gender_truthy g)|]);
    cbn; (split; [reflexivity|split; [reflexivity|]]);
    intros k H; intuition discriminate.
Qed.

Lemma faces_lines_shape (faces : list FaceAttributes) (i : nat) :
  printed_labels (fst (faces_lines i faces)) = []
  /\ printed_face_numbers (fst (faces_lines i faces))
     = seq i (List.length faces)
  /\ forall k, ~ In (LineLabelsDetected k) (fst (faces_lines i faces)).
Proof.
  revert i. induction faces as [|face faces IH]; intros i; cbn [faces_lines].
  - split; [reflexivity|split; [reflexivity|]]. intros k [].
  - pose proof (face_lines_ok i face) as Hok.
    destruct (face_lines_shape i face) as (Hl & Hn & Hh).
    destruct (face_lines i face) as [l [[]|e]]; [|discriminate].
    destruct (IH (S i)) as (Hl' & Hn' & Hh').
    destruct (faces_lines (S i) faces) as [l' r]. cbn [fst] in *.
    rewrite printed_labels_app, printed_face_numbers_app, Hl, Hl', Hn, Hn'.
    split; [reflexivity|split; [reflexivity|]]. intros k Hin. apply in_app_or in Hin as [Hin|Hin].
    + exact (Hh k Hin).
    + exact (Hh' k Hin).
Qed.

Lemma labels_lines_shape (labels : list Label) :
  printed_labels (labels_lines labels)
  = map (fun label => (Name label, Confidence label)) (firstn 5 labels)
  /\ printed_face_numbers (labels_lines labels) = []
  /\ forall k, In (LineLabelsDetected k) (labels_lines labels) ->
               k = List.length labels /\ labels <> [].
Proof.
  unfold labels_lines. destruct labels as [|l0 labels].
  - split; [reflexivity|split; [reflexivity|]].
    intros k [H|[]]; discriminate H.
  - set (ls := l0 :: labels). split; [|split].
    + cbn [printed_labels flat_map label_of_line app].
      induction (firstn 5 ls) as [|x xs IH]; [reflexivity|].
      cbn [map flat_map label_of_line app]. f_equal. exact IH.
    + cbn [printed_face_numbers flat_map face_number_of_line app].
      induction (firstn 5 ls) as [|x xs IH]; [reflexivity|].
      cbn [map flat_map face_number_of_line app]. exact IH.
    + intros k [H|H].
      * injection H as <-. split; [reflexivity|discriminate].
      * apply in_map_iff in H as (x & Hx & _). discriminate Hx.
Qed.

Lemma typed_report_shape (faces : list FaceAttributes)
    (labels : list Label) (frame_count : Z) :
  snd (print_detection_results_lines faces labels frame_count) = Ok tt
  /\ hd_error (fst (print_detection_results_lines faces labels frame_count))
     = Some (LineFrame frame_count)
  /\ last (fst (print_detection_results_lines faces labels frame_count))
          LineNoFaces
     = LineRule
  /\ printed_face_numbers
       (fst (print_detection_results_lines faces labels frame_count))
     = seq 1 (List.length faces).
Proof.
  unfold print_detection_results_lines.
  destruct (labels_lines_shape labels) as (_ & Hln & _).
  destruct faces as [|face faces].
  - cbn [fst snd hd_error]. repeat split.
    + change (LineFrame frame_count :: LineNoFaces
                :: labels_lines labels ++ [LineRule])
        with ((LineFrame frame_count :: LineNoFaces :: labels_lines labels)
                ++ [LineRule]).
      apply last_last.
    + cbn [printed_face_numbers flat_map face_number_of_line app].
      fold (printed_face_numbers (labels_lines labels ++ [LineRule])).
      rewrite printed_face_numbers_app, Hln. reflexivity.
  - set (fs := face :: faces).
    pose proof (faces_lines_ok fs 1) as Hok.
    destruct (faces_lines_shape fs 1) as (_ & Hn & _).
    destruct (faces_lines 1 fs) as [l [[]|e]]; [|discriminate].
    cbn [fst snd hd_error] in *. repeat split.
    + change (LineFrame frame_count :: LineFacesDetected (List.length fs)
                :: l ++ labels_lines labels ++ [LineRule])
        with ((LineFrame frame_count :: LineFacesDetected (List.length fs)
                 :: l) ++ labels_lines labels ++ [LineRule]).
      rewrite app_assoc. apply last_last.
    + cbn [printed_face_numbers flat_map face_number_of_line app].
      fold (printed_face_numbers (l ++ labels_lines labels ++ [LineRule])).
      rewrite !printed_face_numbers_app, Hn, Hln. cbn [printed_face_numbers
        flat_map face_number_of_line app]. now rewrite app_nil_r.
Qed.

Lemma face_lines_no_rule (i : nat) (face : FaceAttributes) :
  ~ In LineRule (fst (face_lines i face)).
Proof.
  unfold face_lines, face_head_lines.
  destruct (get (attr_Emotions face) []) as [|e es]; cbn [max_ fst];
    destruct (face_AgeRange (attr_face face));
    (destruct (attr_Gender face) as [g|]; [destruct (gender_truthy g)|]);
    cbn; intuition discriminate.
Qed.

Lemma faces_lines_no_rule (faces : list FaceAttributes) (i : nat) :
  ~ In LineRule (fst (faces_lines i faces)).
Proof.
  revert i. induction faces as [|face faces IH]; intros i; cbn [faces_lines].
  - intros [].
  - pose proof (face_lines_ok i face) as Hok.
    pose proof (face_lines_no_rule i face) as Hf.
    destruct (face_lines i face) as [l [[]|e]]; [|discriminate].
    specialize (IH (S i)). destruct (faces_lines (S i) faces) as [l' r].
    cbn [fst] in *. intros H. apply in_app_or in H as [H|H]; auto.
Qed.

Lemma label_dict_lines_labels_only (labels : list LabelDict) :
  printed_face_numbers (fst (label_dict_lines labels)) = []
  /\ ~ In LineRule (fst (label_dict_lines labels)).
Proof.
  induction labels as [|label labels IH]; cbn [label_dict_lines].
  - split; [reflexivity|intros []].
  - destruct (dict_Name label); cbn [getitem]; [|split; [reflexivity|intros []]].
    destruct (dict_Confidence label); cbn [getitem];
      [|split; [reflexivity|intros []]].
    destruct (label_dict_lines labels) as [ls r]. cbn [fst] in *.
    destruct IH as [IH1 IH2]. split; [exact IH1|].
    intros [H|H]; [discriminate H|auto].
Qed.

Lemma label_dict_lines_ok (labels : list LabelDict) :
  Forall (fun label => has_label_keys label = true) labels ->
  snd (label_dict_lines labels) = Ok tt.
Proof.
  induction 1 as [|label labels Hk _ IH]; cbn [label_dict_lines].
  - reflexivity.
  - unfold has_label_keys in Hk.
    destruct (dict_Name label); [|discriminate].
    destruct (dict_Confidence label); [|discriminate]. cbn [getitem].
    destruct (label_dict_lines labels) as [ls r]. exact IH.
Qed.

Lemma label_dict_lines_raises (labels : list LabelDict) (label : LabelDict) :
  In label labels ->
  has_label_keys label = false ->
  exists key, snd (label_dict_lines labels) = Raise (KeyError key).
Proof.
  intros Hin Hk. induction labels as [|l0 labels IH]; [contradiction|].
  cbn [label_dict_lines].
  destruct (dict_Name l0) as [name|] eqn:Hn; cbn [getitem];
    [|eexists; reflexivity].
  destruct (dict_Confidence l0) as [c|] eqn:Hc; cbn [getitem];
    [|eexists; reflexivity].
  destruct Hin as [->|Hin].
  - unfold has_label_keys in Hk. rewrite Hn, Hc in Hk. discriminate Hk.
  - destruct (IH Hin) as [key Hkey].
    destruct (label_dict_lines labels) as [ls r]. now exists key.
Qed.

Lemma label_dict_lines_typed (labels : list Label) :
  label_dict_lines (map dict_of_label labels)
  = (map (fun label => LineLabel (Name label) (Confidence label)) labels,
     Ok tt).
Proof.
  induction labels as [|label labels IH]; [reflexivity|].
  cbn [map label_dict_lines dict_of_label dict_Name dict_Confidence getitem].
  now rewrite IH.
Qed.

Lemma labels_dicts_lines_typed (labels : list Label) :
  labels_dicts_lines (map dict_of_label labels) = (labels_lines labels, Ok tt).
Proof.
  unfold labels_dicts_lines, labels_lines.
  destruct labels as [|l0 labels]; [reflexivity|].
  set (ls := l0 :: labels). change (map dict_of_label ls) with
    (dict_of_label l0 :: map dict_of_label labels) at 1.
  cbv iota. rewrite firstn_map, label_dict_lines_typed, length_map.
  reflexivity.
Qed.

(** X14: on faces whose emotions carry their two keys, the report takes the
    maximum of a non-empty list only and reads ['Name'] and ['Confidence']
    of the first five labels only.  When these five carry both keys the
    report does not raise, opens with the line naming the frame, closes with
    the rule and numbers the faces 1, 2, ... in the order of the response;
    when one of them lacks a key the report raises [KeyError] before the
    rule is printed.  On labels that all carry both keys it prints what
    [print_detection_results_lines] gives. *)
Theorem report_is_framed_and_numbered (faces : list FaceAttributes)
    (labels : list LabelDict) (frame_count : Z) :
  (Forall (fun label => has_label_keys label = true) (firstn 5 labels) ->
   snd (print_detection_results_dicts faces labels frame_count) = Ok tt
   /\ hd_error (fst (print_detection_results_dicts faces labels frame_count))
      = Some (LineFrame frame_count)
   /\ last (fst (print_detection_results_dicts faces labels frame_count))
           LineNoFaces
      = LineRule
   /\ printed_face_numbers
        (fst (print_detection_results_dicts faces labels frame_count))
      = seq 1 (List.length faces))
  /\ (forall label,
        In label (firstn 5 labels) ->
        has_label_keys label = false ->
        (exists key,
           snd (print_detection_results_dicts faces labels frame_count)
           = Raise (KeyError key))
        /\ ~ In LineRule
               (fst (print_detection_results_dicts faces labels frame_count)))
  /\ (forall typed,
        labels = map dict_of_label typed ->
        print_detection_results_dicts faces labels frame_count
        = print_detection_results_lines faces typed frame_count).
Proof.
  assert (Hfaces : exists fl,
            match faces with
            | [] => ([LineNoFaces], Ok tt)
            | _ :: _ =>
                let (l, r) := faces_lines 1 faces in
                (LineFacesDetected (List.length faces) :: l, r)
            end = (fl, Ok tt)
            /\ printed_face_numbers fl = seq 1 (List.length faces)
            /\ ~ In LineRule fl).
  { destruct faces as [|face faces].
    - eexists. split; [reflexivity|]. split; [reflexivity|].
      intros [H|[]]. discriminate H.
    - set (fs := face :: faces).
      pose proof (faces_lines_ok fs 1) as Hok.
      destruct (faces_lines_shape fs 1) as (_ & Hn & _).
      pose proof (faces_lines_no_rule fs 1) as Hr.
      destruct (faces_lines 1 fs) as [l [[]|e]]; [|discriminate].
      cbn [fst] in *. eexists. split; [reflexivity|]. split; [exact Hn|].
      intros [H|H]; [discriminate H|auto]. }
  destruct Hfaces as (fl & Hfl & Hnum & Hnorule).
  unfold print_detection_results_dicts. rewrite Hfl.
  split; [|split].
  - intros Hkeys.
    assert (Hll : exists ll, labels_dicts_lines labels = (ll, Ok tt)
                             /\ printed_face_numbers ll = []).
    { unfold labels_dicts_lines. destruct labels as [|l0 labels].
      - eexists. split; reflexivity.
      - pose proof (label_dict_lines_ok _ Hkeys) as Hok.
        destruct (label_dict_lines_labels_only (firstn 5 (l0 :: labels)))
          as [Hn _].
        destruct (label_dict_lines (firstn 5 (l0 :: labels))) as [ls r].
        cbn [fst snd] in *. subst r. eexists. split; [reflexivity|].
        exact Hn. }
    destruct Hll as (ll & Hll & Hlln). rewrite Hll. cbn [fst snd hd_error].
    split; [reflexivity|]. split; [reflexivity|]. split.
    + change (LineFrame frame_count :: fl ++ ll ++ [LineRule])
        with ((LineFrame frame_count :: fl) ++ ll ++ [LineRule]).
      rewrite app_assoc. apply last_last.
    + change (LineFrame frame_count :: fl ++ ll ++ [LineRule])
        with ([LineFrame frame_count] ++ fl ++ ll ++ [LineRule]).
      rewrite !printed_face_numbers_app, Hnum, Hlln. cbn.
      now rewrite app_nil_r.
  - intros label Hin Hk.
    unfold labels_dicts_lines. destruct labels as [|l0 labels];
      [destruct Hin|].
    destruct (label_dict_lines_raises _ _ Hin Hk) as [key Hkey].
    destruct (label_dict_lines_labels_only (firstn 5 (l0 :: labels)))
      as [_ Hr].
    destruct (label_dict_lines (firstn 5 (l0 :: labels))) as [ls r].
    cbn [fst snd] in *. subst r. cbn [fst snd]. split; [now exists key|].
    intros [H|H]; [discriminate H|].
    apply in_app_or in H as [H|[H|H]]; [auto|discriminate H|auto].
  - intros typed ->. rewrite labels_dicts_lines_typed.
    unfold print_detection_results_lines.
    destruct faces as [|face faces].
    + injection Hfl as <-. reflexivity.
    + destruct (faces_lines 1 (face :: faces)) as [l [[]|e]];
        [|discriminate Hfl].
      injection Hfl as <-. reflexivity.
Qed.

Lemma report_is_framed_and_numbered_witness :
  snd (print_detection_results_dicts sample_faces
         (firstn 6 sample_label_dicts) 7) = Ok tt
  /\ hd_error (fst (print_detection_results_dicts sample_faces
                      (firstn 6 sample_label_dicts) 7))
     = Some (LineFrame 7)
  /\ last (fst (print_detection_results_dicts sample_faces
                  (firstn 6 sample_label_dicts) 7))
          LineNoFaces
     = LineRule
  /\ printed_face_numbers
       (fst (print_detection_results_dicts sample_faces
               (firstn 6 sample_label_dicts) 7))
     = seq 1 (List.length sample_faces).
Proof.
  apply (proj1 (report_is_framed_and_numbered
                  sample_faces (firstn 6 sample_label_dicts) 7)).
  repeat constructor.
Defined.

(** X15: the report lists the first five labels of the response, in order,
    with their names and confidences, and no others, while the count it
    announces is that of all the labels of the response. *)
Theorem report_lists_first_five_labels (faces : list FaceAttributes)
    (labels : list Label) (frame_count : Z) :
  printed_labels
    (fst (print_detection_results_lines faces labels frame_count))
  = map (fun label => (Name label, Confidence label)) (firstn 5 labels)
  /\ (List.length
        (printed_labels
           (fst (print_detection_results_lines faces labels frame_count)))
      <= 5)%nat
  /\ forall k,
       In (LineLabelsDetected k)
          (fst (print_detection_results_lines faces labels frame_count)) ->
       k = List.length labels.
Proof.
  assert (Hmain :
    printed_labels
      (fst (print_detection_results_lines faces labels frame_count))
    = map (fun label => (Name label, Confidence label)) (firstn 5 labels)
    /\ forall k,
         In (LineLabelsDetected k)
            (fst (print_detection_results_lines faces labels frame_count)) ->
         k = List.length labels).
  { unfold print_detection_results_lines.
    destruct (labels_lines_shape labels) as (Hll & _ & Hlh).
    destruct faces as [|face faces].
    - cbn [fst]. split.
      + cbn [printed_labels flat_map label_of_line app].
        fold (printed_labels (labels_lines labels ++ [LineRule])).
        rewrite printed_labels_app, Hll. cbn. now rewrite app_nil_r.
      + intros k [H|[H|H]]; try discriminate H.
        apply in_app_or in H as [H|[H|[]]]; [|discriminate H].
        exact (proj1 (Hlh k H)).
    - set (fs := face :: faces).
      pose proof (faces_lines_ok fs 1) as Hok.
      destruct (faces_lines_shape fs 1) as (Hl & _ & Hh).
      destruct (faces_lines 1 fs) as [l [[]|e]]; [|discriminate].
      cbn [fst snd] in *. split.
      + cbn [printed_labels flat_map label_of_line app].
        fold (printed_labels (l ++ labels_lines labels ++ [LineRule])).
        rewrite !printed_labels_app, Hl, Hll. cbn. now rewrite app_nil_r.
      + intros k [H|[H|H]]; try discriminate H.
        apply in_app_or in H as [H|H]; [now apply Hh in H|].
        apply in_app_or in H as [H|[H|[]]]; [|discriminate H].
        exact (proj1 (Hlh k H)). }
  destruct Hmain as [Hl Hh]. split; [exact Hl|split; [|exact Hh]].
  rewrite Hl, length_map. apply firstn_le_length.
Qed.

Lemma face_lines_emotion (i : nat) (face : FaceAttributes) (ty : string)
    (c : float) :
  In (LineEmotion ty c) (fst (face_lines i face)) ->
  exists top,
    In top (get (attr_Emotions face) [])
    /\ ty = emotion_Type top /\ c = emotion_Confidence top
    /\ forall e, In e (get (attr_Emotions face) []) ->
                 ltb c (emotion_Confidence e) = false.
Proof.
  unfold face_lines.
  assert (Hhead : ~ In (LineEmotion ty c) (face_head_lines i face)).
  { unfold face_head_lines.
    destruct (face_AgeRange (attr_face face));
      (destruct (attr_Gender face) as [g|]; [destruct (gender_truthy g)|]);
      cbn; intuition discriminate. }
  destruct (get (attr_Emotions face) []) as [|e0 es]; cbn [max_ fst].
  - intros H. contradiction.
  - intros H. apply in_app_or in H as [H|[H|[]]]; [contradiction|].
    injection H as <- <-. exists (max_from emotion_Confidence e0 es).
    split; [apply max_from_in|]. repeat split.
    intros e He. now apply max_from_greatest.
Qed.

Lemma faces_lines_emotion (faces : list FaceAttributes) (i : nat)
    (ty : string) (c : float) :
  In (LineEmotion ty c) (fst (faces_lines i faces)) ->
  exists face top,
    In face faces
    /\ In top (get (attr_Emotions face) [])
    /\ ty = emotion_Type top /\ c = emotion_Confidence top
    /\ forall e, In e (get (attr_Emotions face) []) ->
                 ltb c (emotion_Confidence e) = false.
Proof.
  revert i. induction faces as [|face faces IH]; intros i; cbn [faces_lines].
  - intros [].
  - pose proof (face_lines_ok i face) as Hok.
    pose proof (face_lines_emotion i face ty c) as Hface.
    destruct (face_lines i face) as [l [[]|e]]; [|discriminate].
    specialize (IH (S i)). destruct (faces_lines (S i) faces) as [l' r].
    cbn [fst] in *. intros H. apply in_app_or in H as [H|H].
    + destruct (Hface H) as (top & Ht). exists face, top.
      split; [now left|exact Ht].
    + destruct (IH H) as (face' & top & Hin & Ht). exists face', top.
      split; [now right|exact Ht].
Qed.

(** X16: an emotion line of the report names, for some face of the
    response, one of that face's emotions with its own confidence, and no
    emotion of that face has a greater confidence. *)
Theorem report_names_strongest_emotion (faces : list FaceAttributes)
    (labels : list Label) (frame_count : Z) (ty : string) (c : float) :
  In (LineEmotion ty c)
     (fst (print_detection_results_lines faces labels frame_count)) ->
  exists face top,
    In face faces
    /\ In top (get (attr_Emotions face) [])
    /\ ty = emotion_Type top /\ c = emotion_Confidence top
    /\ forall e, In e (get (attr_Emotions face) []) ->
                 ltb c (emotion_Confidence e) = false.
Proof.
  unfold print_detection_results_lines.
  assert (Hlab : ~ In (LineEmotion ty c) (labels_lines labels ++ [LineRule])).
  { intros H. apply in_app_or in H as [H|[H|[]]]; [|discriminate H].
    unfold labels_lines in H. destruct labels as [|l0 labels].
    - destruct H as [H|[]]; discriminate H.
    - destruct H as [H|H]; [discriminate H|].
      apply in_map_iff in H as (x & Hx & _). discriminate Hx. }
  destruct faces as [|face faces].
  - cbn [fst]. intros [H|[H|H]]; try discriminate H. contradiction.
  - set (fs := face :: faces).
    pose proof (faces_lines_ok fs 1) as Hok.
    pose proof (faces_lines_emotion fs 1 ty c) as Hem.
    destruct (faces_lines 1 fs) as [l [[]|e]]; [|discriminate].
    cbn [fst] in *. intros [H|[H|H]]; try discriminate H.
    apply in_app_or in H as [H|H]; [exact (Hem H)|contradiction].
Qed.

Lemma report_names_strongest_emotion_witness :
  exists face top,
    In face sample_faces
    /\ In top (get (attr_Emotions face) [])
    /\ "HAPPY"%string = emotion_Type top
    /\ of_Z 55 = emotion_Confidence top
    /\ forall e, In e (get (attr_Emotions face) []) ->
                 ltb (of_Z 55) (emotion_Confidence e) = false.
Proof.
  apply (report_names_strongest_emotion sample_faces sample_labels 7).
  vm_compute. tauto.
Defined.

Lemma report_lists_first_five_labels_witness :
  7%nat = List.length sample_labels.
Proof.
  apply (proj2 (proj2 (report_lists_first_five_labels
                         sample_faces sample_labels 7)) 7%nat).
  vm_compute. tauto.
Defined.

(** *** Edge cases of the analysis branch *)

Lemma triggered_iteration (n : Z) (st : loop_state) (w : world) (f : frame)
    (k : Z) :
  cap_read w = Ok (true, f) ->
  waitKey w = Ok k ->
  (manual_trigger k || cadence_fires n (frame_count st + 1))
  && gt_int (sub (time_time w) (last_analysis_time st)) 2 = true ->
  loop_body n st w
  = match analysis w f (frame_count st + 1) with
    | (t, Ok f') =>
        (t ++ [ImShow (caption f' (frame_count st + 1))],
         Ok (Next {| frame_count := frame_count st + 1;
                     last_analysis_time := time_time w |}))
    | (t, Raise e) => (t, Raise e)
    end.
Proof.
  intros Hread Hkey Htrig. rewrite loop_body_cases, Hread, Hkey.
  pose proof (key_branch_analyze n (frame_count st + 1) k) as Hb.
  apply andb_true_iff in Htrig as [Hm Hgt].
  destruct (key_branch _ _ _) as [b|e]; [|congruence].
  rewrite Hm in Hb. destruct b; try discriminate Hb.
  cbn [analyze_frame_of andb]. now rewrite Hgt.
Qed.

(** X17: the success flag of the encoder is not looked at: when the encoder
    returns a buffer with the flag down, the iteration sends that buffer to
    the service all the same, in its face request and, if the face call does
    not raise past [detect_faces], in its label request. *)
Theorem encoder_flag_is_ignored (n : Z) (st : loop_state) (w : world)
    (f : frame) (k : Z) (buf : bytes) :
  cap_read w = Ok (true, f) ->
  waitKey w = Ok k ->
  (manual_trigger k || cadence_fires n (frame_count st + 1))
  && gt_int (sub (time_time w) (last_analysis_time st)) 2 = true ->
  imencode w f = Ok (false, buf) ->
  faces_requests (fst (loop_body n st w)) = [buf]
  /\ (absorbed (rekognition_detect_faces w buf ["ALL"%string]) = true ->
      labels_requests (fst (loop_body n st w)) = [buf]).
Proof.
  intros Hread Hkey Htrig Henc.
  rewrite (triggered_iteration n st w f k Hread Hkey Htrig).
  rewrite analysis_cases, Henc, detect_faces_cases, detect_labels_cases.
  destruct (rekognition_detect_faces w buf ["ALL"%string]) as [rf|ef];
    [|destruct (is_ClientError ef) eqn:Hf;
      [|split; [reflexivity|cbn; congruence]]];
    (destruct (rekognition_detect_labels w buf MaxLabels MinConfidence)
       as [rl|el];
     [|destruct (is_ClientError el)]);
    try (destruct (draw_face_boxes f _));
    (split; [reflexivity|intros _; reflexivity]).
Qed.

Lemma encoder_flag_is_ignored_witness :
  faces_requests (fst (loop_body 30 (Sample.at_ 4 10) Edge.flag_down))
  = [[]].
Proof.
  exact (proj1 (encoder_flag_is_ignored
                  30 (Sample.at_ 4 10) Edge.flag_down Sample.raw_frame 32 []
                  eq_refl eq_refl eq_refl eq_refl)).
Defined.

(** X18: responses that lack their ['FaceDetails'] and ['Labels'] keys are
    read as empty lists: the iteration prints results with no face and no
    label, shows the frame with the two captions only, and goes on. *)
Theorem missing_response_keys_read_as_empty (n : Z) (st : loop_state)
    (w : world) (f : frame) (k : Z) (flag : bool) (buf : bytes) :
  cap_read w = Ok (true, f) ->
  waitKey w = Ok k ->
  (manual_trigger k || cadence_fires n (frame_count st + 1))
  && gt_int (sub (time_time w) (last_analysis_time st)) 2 = true ->
  imencode w f = Ok (flag, buf) ->
  rekognition_detect_faces w buf ["ALL"%string]
  = Ok {| FaceDetails := None |} ->
  rekognition_detect_labels w buf 10 70 = Ok {| Labels := None |} ->
  loop_body n st w
  = ([Print (MsgAnalyzing (frame_count st + 1));
      DetectFacesRequest buf ["ALL"%string];
      DetectLabelsRequest buf 10 70;
      Print (MsgDetectionResults [] [] (frame_count st + 1));
      ImShow (caption f (frame_count st + 1))],
     Ok (Next {| frame_count := frame_count st + 1;
                 last_analysis_time := time_time w |})).
Proof.
  intros Hread Hkey Htrig Henc Hf Hl.
  rewrite (triggered_iteration n st w f k Hread Hkey Htrig).
  rewrite analysis_cases, Henc, detect_faces_cases, detect_labels_cases.
  change MaxLabels with 10. change MinConfidence with 70.
  rewrite Hf, Hl. reflexivity.
Qed.

Lemma missing_response_keys_witness :
  next_state (loop_body 30 (Sample.at_ 4 10) Edge.keyless)
  = Some {| frame_count := 4 + 1; last_analysis_time := of_Z 13 |}.
Proof.
  exact (f_equal next_state
           (missing_response_keys_read_as_empty
              30 (Sample.at_ 4 10) Edge.keyless Sample.raw_frame 32 true
              Sample.jpeg eq_refl eq_refl eq_refl eq_refl eq_refl eq_refl)).
Defined.
